(** * pyiPTMnet: the batching helper and the endpoint calls of [pyiptmnet/api.py]

    The development embeds the part of [api.py] that has behaviour of its own:
    [__get_data] (chunking, retention filter, merge), the endpoint functions
    that feed it, and the Python notions they rely on (truth value of an
    object, [dict.update], [range], slicing).  A call of the endpoint
    function is an effect: it is threaded through a world state and may
    raise, so the code is written in a small state-and-exception monad. *)

From Stdlib Require Import String List ZArith Bool Arith Lia DecimalString.
Import ListNotations.

Local Open Scope list_scope.

#[local] Set Warnings "-register-all".

(** ** Python values *)

Module Py.

(** Exceptions that can cross [__get_data]. *)
Inductive PyExn : Type :=
| ValueError (msg : string)
| TypeError (msg : string)
| HTTPError (status_code : Z)
| OtherError (name : string).

(** The outcome of evaluating an expression or a call. *)
Inductive Outcome (A : Type) : Type :=
| Returned (a : A)
| Raised (e : PyExn).
Arguments Returned {A} a.
Arguments Raised {A} e.

(** A cell of a table, and a pandas [DataFrame]: named columns and rows. *)
Inductive Cell : Type :=
| CNaN
| CInt (z : Z)
| CStr (s : string).

Record DataFrame : Type := mkFrame {
  columns : list string;
  rows : list (list Cell)
}.

(** Hashable objects, as they occur as keys of a [dict]. *)
Inductive PyKey : Type :=
| KNone
| KBool (b : bool)
| KInt (z : Z)
| KStr (s : string)
| KBuiltin (name : string).

(** The objects an endpoint function can hand back: JSON-like data (numbers
    are integers here), builtin function objects, and data frames.  A
    [dict] keeps its entries in insertion order. *)
Inductive PyVal : Type :=
| PyNone
| PyBool (b : bool)
| PyInt (z : Z)
| PyStr (s : string)
| PyBuiltin (name : string)
| PyList (items : list PyVal)
| PyDict (entries : list (PyKey * PyVal))
| PyDataFrame (df : DataFrame).

Definition ambiguous_truth : PyExn :=
  ValueError "The truth value of a DataFrame is ambiguous. Use a.empty, a.bool(), a.item(), a.any() or a.all().".

(** [bool(v)], the test behind [if v:] and [not v].  Containers are true
    when non-empty; [DataFrame.__bool__] always raises. *)
Definition py_bool (v : PyVal) : Outcome bool :=
  match v with
  | PyNone => Returned false
  | PyBool b => Returned b
  | PyInt z => Returned (negb (z =? 0)%Z)
  | PyStr s => Returned (negb (String.length s =? 0))
  | PyBuiltin _ => Returned true
  | PyList items => Returned (negb (length items =? 0))
  | PyDict entries => Returned (negb (length entries =? 0))
  | PyDataFrame _ => Raised ambiguous_truth
  end.

(** [v is True] *)
Definition is_True (v : PyVal) : bool :=
  match v with
  | PyBool true => true
  | _ => false
  end.

(** Key comparison of a [dict]: [True == 1] and [False == 0], everything
    else compares within its own type. *)
Definition key_norm (k : PyKey) : PyKey :=
  match k with
  | KBool true => KInt 1
  | KBool false => KInt 0
  | _ => k
  end.

Definition key_eqb_raw (a b : PyKey) : bool :=
  match a, b with
  | KNone, KNone => true
  | KBool x, KBool y => Bool.eqb x y
  | KInt x, KInt y => (x =? y)%Z
  | KStr x, KStr y => String.eqb x y
  | KBuiltin x, KBuiltin y => String.eqb x y
  | _, _ => false
  end.

Definition key_eqb (a b : PyKey) : bool :=
  key_eqb_raw (key_norm a) (key_norm b).

(** [d[k] = v]: an existing key keeps its place (and its key object), a new
    key goes to the end. *)
Fixpoint dict_setitem (d : list (PyKey * PyVal)) (k : PyKey) (v : PyVal)
  : list (PyKey * PyVal) :=
  match d with
  | [] => [(k, v)]
  | (k', v') :: rest =>
      if key_eqb k' k then (k', v) :: rest
      else (k', v') :: dict_setitem rest k v
  end.

Fixpoint dict_getitem (d : list (PyKey * PyVal)) (k : PyKey) : option PyVal :=
  match d with
  | [] => None
  | (k', v') :: rest => if key_eqb k' k then Some v' else dict_getitem rest k
  end.

(** [hash(v)] succeeds on the immutable objects only. *)
Definition as_key (v : PyVal) : Outcome PyKey :=
  match v with
  | PyNone => Returned KNone
  | PyBool b => Returned (KBool b)
  | PyInt z => Returned (KInt z)
  | PyStr s => Returned (KStr s)
  | PyBuiltin n => Returned (KBuiltin n)
  | PyList _ => Raised (TypeError "unhashable type: 'list'")
  | PyDict _ => Raised (TypeError "unhashable type: 'dict'")
  | PyDataFrame _ => Raised (TypeError "unhashable type: 'DataFrame'")
  end.

Definition key_val (k : PyKey) : PyVal :=
  match k with
  | KNone => PyNone
  | KBool b => PyBool b
  | KInt z => PyInt z
  | KStr s => PyStr s
  | KBuiltin n => PyBuiltin n
  end.

(** The characters of a string, each as a one-character string. *)
Fixpoint chars (s : string) : list PyVal :=
  match s with
  | EmptyString => []
  | String c rest => PyStr (String c EmptyString) :: chars rest
  end.

(** [range(start, stop, step)] for a positive step. *)
Definition py_range (start stop step : nat) : list nat :=
  map (fun k => start + k * step) (seq 0 ((stop - start + step - 1) / step)).

(** [l[lo:hi]] for non-negative bounds. *)
Definition slice {A : Type} (l : list A) (lo hi : nat) : list A :=
  firstn (hi - lo) (skipn lo l).

End Py.
Export Py.

(** ** The world: calls that have effects and may raise *)

Module Eff.

(** A computation reads and updates the world and returns or raises; an
    exception leaves the world as it was when it was raised. *)
Definition M (W A : Type) : Type := W -> Outcome A * W.

Definition ret {W A : Type} (a : A) : M W A := fun w => (Returned a, w).

Definition lift {W A : Type} (o : Outcome A) : M W A := fun w => (o, w).

Definition bind {W A B : Type} (m : M W A) (k : A -> M W B) : M W B :=
  fun w =>
    match m w with
    | (Returned a, w') => k a w'
    | (Raised e, w') => (Raised e, w')
    end.

End Eff.
Export Eff.

Notation "x <- m ;; k" := (bind m (fun x => k))
  (at level 61, m at next level, right associativity).

(** The same sequencing for pure computations that may raise. *)
Definition obind {A B : Type} (o : Outcome A) (k : A -> Outcome B) : Outcome B :=
  match o with
  | Returned a => k a
  | Raised e => Raised e
  end.

(** ** Sites and endpoint functions *)

(** A site as [__get_sites_from_files] builds it. *)
Record Site : Type := mkSite {
  substrate_ac : string;
  site_residue : string;
  site_position : string
}.

(** An endpoint function, called as [get_data_func(items, dict=dict)]. *)
Definition Invoker (W : Type) : Type := list Site -> PyVal -> M W PyVal.

(** ** What the helper uses of pandas

    [pd.concat] and the view of a frame as a mapping belong to pandas; the
    helper is verified for whatever they compute. *)
Record Pandas : Type := mkPandas {
  (** [pd.concat(objs, ignore_index=True)] *)
  pd_concat : list PyVal -> Outcome PyVal;
  (** the [(label, column)] pairs that [dict.update] reads off a frame
      through [keys()] and [__getitem__] *)
  frame_items : DataFrame -> Outcome (list (PyKey * PyVal))
}.

(** [pd.DataFrame()] *)
Definition empty_frame : DataFrame := mkFrame [] [].

(** ** [dict.update] *)

Definition show_nat (n : nat) : string := NilEmpty.string_of_uint (Nat.to_uint n).

Definition not_a_pair (i n : nat) : PyExn :=
  ValueError ("dictionary update sequence element #" ++ show_nat i
              ++ " has length " ++ show_nat n ++ "; 2 is required")%string.

Definition not_a_sequence (i : nat) : PyExn :=
  TypeError ("cannot convert dictionary update sequence element #" ++ show_nat i
             ++ " to a sequence")%string.

(** An element of an update sequence must itself be a sequence of two
    objects. *)
Definition as_pair (i : nat) (item : PyVal) : Outcome (PyVal * PyVal) :=
  match item with
  | PyList [a; b] => Returned (a, b)
  | PyList l => Raised (not_a_pair i (length l))
  | PyStr s =>
      match chars s with
      | [a; b] => Returned (a, b)
      | l => Raised (not_a_pair i (length l))
      end
  | PyDict [(a, _); (b, _)] => Returned (key_val a, key_val b)
  | PyDict l => Raised (not_a_pair i (length l))
  | PyDataFrame df =>
      match columns df with
      | [a; b] => Returned (PyStr a, PyStr b)
      | l => Raised (not_a_pair i (length l))
      end
  | PyNone | PyBool _ | PyInt _ | PyBuiltin _ => Raised (not_a_sequence i)
  end.

Definition update_entries (merged entries : list (PyKey * PyVal))
  : list (PyKey * PyVal) :=
  fold_left (fun d kv => dict_setitem d (fst kv) (snd kv)) entries merged.

Fixpoint update_pairs (merged : list (PyKey * PyVal)) (i : nat) (items : list PyVal)
  : Outcome (list (PyKey * PyVal)) :=
  match items with
  | [] => Returned merged
  | item :: rest =>
      obind (as_pair i item) (fun kv =>
      obind (as_key (fst kv)) (fun k =>
      update_pairs (dict_setitem merged k (snd kv)) (S i) rest))
  end.

(** [merged.update(other)]: a mapping is read through its keys, anything
    else is iterated as a sequence of pairs. *)
Definition dict_update (pandas : Pandas) (merged : list (PyKey * PyVal)) (other : PyVal)
  : Outcome (list (PyKey * PyVal)) :=
  match other with
  | PyDict entries => Returned (update_entries merged entries)
  | PyDataFrame df => obind (frame_items pandas df) (fun es => Returned (update_entries merged es))
  | PyList items => update_pairs merged 0 items
  | PyStr s => update_pairs merged 0 (chars s)
  | PyNone => Raised (TypeError "'NoneType' object is not iterable")
  | PyBool _ => Raised (TypeError "'bool' object is not iterable")
  | PyInt _ => Raised (TypeError "'int' object is not iterable")
  | PyBuiltin _ => Raised (TypeError "'builtin_function_or_method' object is not iterable")
  end.

(** ** [__get_data] *)

Section BatchCoordinator.

Context {W : Type}.
Variable pandas : Pandas.

(** Lines 519-524: the loop over [range(0, len(sites), 1000)].  [starts] is
    what is left of the range, [all_chunks] the list built so far. *)
Fixpoint for_chunks (sites : list Site) (get_data_func : Invoker W) (dict : PyVal)
  (starts : list nat) (all_chunks : list PyVal) : M W (list PyVal) :=
  match starts with
  | [] => ret all_chunks
  | i :: rest =>
      let chunk := slice sites i (i + 1000) in
      chunk_result <- get_data_func chunk dict ;;
      keep <- lift (py_bool chunk_result) ;;
      for_chunks sites get_data_func dict rest
        (if keep then all_chunks ++ [chunk_result] else all_chunks)
  end.

(** Lines 532-540: one splice or append per retained chunk. *)
Definition flatten_step (flattened : list PyVal) (chunk : PyVal) : list PyVal :=
  match chunk with
  | PyList items => flattened ++ items
  | PyDict _ => flattened ++ [chunk]
  | _ => flattened ++ [chunk]
  end.

(** Lines 549-552: [merged.update(chunk)] for every retained chunk. *)
Fixpoint update_all (merged : list (PyKey * PyVal)) (all_chunks : list PyVal)
  : Outcome (list (PyKey * PyVal)) :=
  match all_chunks with
  | [] => Returned merged
  | chunk :: rest => obind (dict_update pandas merged chunk) (fun m => update_all m rest)
  end.

(** Lines 526-555: what is returned for the retained chunk results. *)
Definition merge_chunks (all_chunks : list PyVal) (dict : PyVal) : Outcome PyVal :=
  match all_chunks with
  | [] =>
      obind (py_bool dict) (fun d =>
      Returned (if d then PyList [] else PyDataFrame empty_frame))
  | first :: _ =>
      if is_True dict then
        Returned (PyList (fold_left flatten_step all_chunks []))
      else
        match first with
        | PyDataFrame _ => pd_concat pandas all_chunks
        | PyDict _ => obind (update_all [] all_chunks) (fun merged => Returned (PyDict merged))
        | _ => Returned (PyList all_chunks)
        end
  end.

Definition __get_data (sites : list Site) (get_data_func : Invoker W) (dict : PyVal)
  : M W PyVal :=
  if length sites <=? 1000 then
    get_data_func sites dict
  else
    all_chunks <- for_chunks sites get_data_func dict (py_range 0 (length sites) 1000) [] ;;
    lift (merge_chunks all_chunks dict).

End BatchCoordinator.

(** ** Observing the calls of a batch

    The endpoint function is wrapped so that every call leaves a record in
    a log carried next to the world: its argument, the flag and how it
    ended.  [__get_data] is polymorphic in the world, so the log of the
    wrapped run is the sequence of calls the run makes. *)

Record Call : Type := mkCall {
  call_items : list Site;
  call_flag : PyVal;
  call_outcome : Outcome PyVal
}.

Definition traced {W : Type} (f : Invoker W) : Invoker (W * list Call) :=
  fun items flag st =>
    let (o, w') := f items flag (fst st) in
    (o, (w', snd st ++ [mkCall items flag o])).

(** The chunks of lines 520-521, in loop order. *)
Definition chunks_of (sites : list Site) : list (list Site) :=
  map (fun i => slice sites i (i + 1000)) (py_range 0 (length sites) 1000).

(** The exception a call contributes to the loop, if any: the one it
    raises, or the one the truth test of its result raises. *)
Definition abort_of (c : Call) : option PyExn :=
  match call_outcome c with
  | Raised e => Some e
  | Returned v =>
      match py_bool v with
      | Raised e => Some e
      | Returned _ => None
      end
  end.

(** The call returned a result that [if chunk_result:] can test. *)
Definition call_ok (c : Call) : bool :=
  match abort_of c with
  | None => true
  | Some _ => false
  end.

(** The result of a call when it is kept by [if chunk_result:]. *)
Definition kept (c : Call) : list PyVal :=
  match call_outcome c with
  | Returned v =>
      match py_bool v with
      | Returned true => [v]
      | _ => []
      end
  | Raised _ => []
  end.

Definition retained (calls : list Call) : list PyVal := flat_map kept calls.

(** The values the calls returned, kept or not. *)
Definition returned_values (calls : list Call) : list PyVal :=
  flat_map (fun c => match call_outcome c with Returned v => [v] | Raised _ => [] end) calls.

(** A batch run from world [w] with an empty log. *)
Definition run_batch {W : Type} (pandas : Pandas) (sites : list Site)
  (get_data_func : Invoker W) (dict : PyVal) (w : W) : Outcome PyVal * (W * list Call) :=
  __get_data pandas sites (traced get_data_func) dict (w, []).

Definition result_of {W : Type} (r : Outcome PyVal * (W * list Call)) : Outcome PyVal := fst r.
Definition calls_of {W : Type} (r : Outcome PyVal * (W * list Call)) : list Call := snd (snd r).
Definition world_of {W : Type} (r : Outcome PyVal * (W * list Call)) : W := fst (snd r).

(** ** The endpoint functions *)

Module Endpoints.

Local Open Scope string_scope.

(** What [requests.get] and [requests.post] are given. *)
Record Request : Type := mkRequest {
  req_method : string;
  req_url : string;
  req_params : list (string * PyVal);
  req_data : option string;
  req_headers : list (string * string)
}.

(** What the helper reads of the answer. *)
Record Response : Type := mkResponse {
  status_code : Z;
  text : string
}.

(** The module globals [__host_url] and [__selected_version]; the version is
    kept as the text it formats to, since [pyiptmnet.enums] is not part of
    the sources. *)
Record Config : Type := mkConfig {
  host_url : string;
  selected_version : option string
}.

(** The text codecs of the standard library and of pandas. *)
Record Codec : Type := mkCodec {
  (** [json.loads(text)] *)
  json_loads : string -> Outcome PyVal;
  (** [pd.read_csv(StringIO(text), sep=",")] *)
  read_csv : string -> Outcome PyVal;
  (** [json.dumps(items, indent=4)] *)
  json_dumps : list Site -> string
}.

Definition default_config : Config :=
  mkConfig "https://research.bioinformatics.udel.edu/iptmnet/api" None.

Definition __get_base_url (cfg : Config) : string :=
  match selected_version cfg with
  | None => host_url cfg
  | Some v => (host_url cfg ++ "/" ++ v)%string
  end.

(** [result.raise_for_status()] as the last statement of a function: an
    error status raises, any other one lets the function end with [None]. *)
Definition raise_for_status (result : Response) : Outcome PyVal :=
  if ((400 <=? status_code result) && (status_code result <? 600))%Z
  then Raised (HTTPError (status_code result))
  else Returned PyNone.

(** The [Accept] header chosen by [if dict is True]. *)
Definition accept_headers (dict : PyVal) : list (string * string) :=
  if is_True dict then [("Accept", "application/json")]
  else [("Accept", "text/plain")].

Section WithTransport.

Context {W : Type}.
Variable cfg : Config.
Variable codec : Codec.
(** [requests.get] / [requests.post] with [verify=False]. *)
Variable requests : Request -> M W Response.

Definition _to_dataframe_from_json (text : string) : Outcome PyVal :=
  read_csv codec text.

(** The name [id] is not bound in [search]: it is the builtin function. *)
Definition search (search_term term_type role : string)
  (ptm_list organism_list : option (list string)) (dict : PyVal) : M W PyVal :=
  let ptm_list := match ptm_list with None => [] | Some l => l end in
  let organism_list := match organism_list with None => [] | Some l => l end in
  let data := [("search_term", PyStr search_term);
               ("term_type", PyStr term_type);
               ("ptm_type", PyList (map PyStr ptm_list));
               ("role", PyStr role);
               ("organism", PyList (map PyStr organism_list))] in
  let url := (__get_base_url cfg ++ "/search")%string in
  result <- requests (mkRequest "GET" url data None (accept_headers dict)) ;;
  if (status_code result =? 200)%Z then
    if (text result =? EmptyString)%string then
      ret (PyDict [(KBuiltin "id", PyStr "No data found for the given ID.")])
    else if is_True dict then lift (json_loads codec (text result))
    else lift (_to_dataframe_from_json (text result))
  else lift (raise_for_status result).

Definition get_info (id : string) (dict : PyVal) : M W PyVal :=
  let url := (__get_base_url cfg ++ "/" ++ id ++ "/info")%string in
  result <- requests (mkRequest "GET" url [] None []) ;;
  if (status_code result =? 200)%Z then
    if (text result =? EmptyString)%string then
      ret (PyDict [(KStr id, PyStr "No info found for the given ID.")])
    else lift (json_loads codec (text result))
  else lift (raise_for_status result).

Definition get_msa (id : string) (dict : PyVal) : M W PyVal :=
  let url := (__get_base_url cfg ++ "/" ++ id ++ "/msa")%string in
  result <- requests (mkRequest "GET" url [] None (accept_headers dict)) ;;
  if (status_code result =? 200)%Z then
    if (text result =? EmptyString)%string then
      ret (PyDict [(KStr id, PyStr "No msa found for the given ID.")])
    else if is_True dict then lift (json_loads codec (text result))
    else lift (json_loads codec (text result))
  else lift (raise_for_status result).

Definition get_substrates (id : string) (dict : PyVal) : M W PyVal :=
  let url := (__get_base_url cfg ++ "/" ++ id ++ "/substrate")%string in
  result <- requests (mkRequest "GET" url [] None (accept_headers dict)) ;;
  if (status_code result =? 200)%Z then
    if (text result =? EmptyString)%string then
      ret (PyDict [(KStr id, PyStr "No substrate found for the given ID.")])
    else if is_True dict then lift (json_loads codec (text result))
    else lift (_to_dataframe_from_json (text result))
  else lift (raise_for_status result).

Definition get_proteoforms (id : string) (dict : PyVal) : M W PyVal :=
  let url := (__get_base_url cfg ++ "/" ++ id ++ "/proteoforms")%string in
  result <- requests (mkRequest "GET" url [] None (accept_headers dict)) ;;
  if (status_code result =? 200)%Z then
    if ((text result =? EmptyString) || (text result =? "[]"))%string then
      ret (PyDict [(KStr id, PyStr "No proteoforms found for the given ID.")])
    else if is_True dict then lift (json_loads codec (text result))
    else lift (_to_dataframe_from_json (text result))
  else lift (raise_for_status result).

Definition get_ptm_dependent_ppi (id : string) (dict : PyVal) : M W PyVal :=
  let url := (__get_base_url cfg ++ "/" ++ id ++ "/ptmppi")%string in
  result <- requests (mkRequest "GET" url [] None (accept_headers dict)) ;;
  if (status_code result =? 200)%Z then
    if ((text result =? EmptyString) || (text result =? "[]"))%string then
      ret (PyDict [(KStr id, PyStr "No ptmppi found for the given ID.")])
    else if is_True dict then lift (json_loads codec (text result))
    else lift (_to_dataframe_from_json (text result))
  else lift (raise_for_status result).

Definition get_ppi_for_proteoforms (id : string) (dict : PyVal) : M W PyVal :=
  let url := (__get_base_url cfg ++ "/" ++ id ++ "/proteoformsppi")%string in
  result <- requests (mkRequest "GET" url [] None (accept_headers dict)) ;;
  if (status_code result =? 200)%Z then
    if ((text result =? EmptyString) || (text result =? "[]"))%string then
      ret (PyDict [(KStr id, PyStr "No proteoformsppi found for the given ID.")])
    else if is_True dict then lift (json_loads codec (text result))
    else lift (_to_dataframe_from_json (text result))
  else lift (raise_for_status result).

(** The name [id] is not bound here either: the key is the builtin. *)
Definition get_ptm_enzymes_from_list (items : list Site) (dict : PyVal) : M W PyVal :=
  let url := (__get_base_url cfg ++ "/batch_ptm_enzymes")%string in
  let json_data := json_dumps codec items in
  result <- requests (mkRequest "POST" url [] (Some json_data) (accept_headers dict)) ;;
  if (status_code result =? 200)%Z then
    if ((text result =? EmptyString) || (text result =? "[]"))%string then
      ret (PyDict [(KBuiltin "id", PyStr "No ptm enzymes found for the given ID.")])
    else if is_True dict then lift (json_loads codec (text result))
    else lift (_to_dataframe_from_json (text result))
  else lift (raise_for_status result).

Definition get_ptm_ppi_from_list (items : list Site) (dict : PyVal) : M W PyVal :=
  let url := (__get_base_url cfg ++ "/batch_ptm_ppi")%string in
  let json_data := json_dumps codec items in
  result <- requests (mkRequest "POST" url [] (Some json_data) (accept_headers dict)) ;;
  if (status_code result =? 200)%Z then
    if ((text result =? EmptyString) || (text result =? "[]"))%string then
      ret (PyDict [(KBuiltin "id", PyStr "No ptmppi found for the given ID.")])
    else if is_True dict then lift (json_loads codec (text result))
    else lift (_to_dataframe_from_json (text result))
  else lift (raise_for_status result).

Variable pandas : Pandas.
(** [__get_sites_from_files]: the sites of a tab-separated file. *)
Variable __get_sites_from_files : string -> M W (list Site).

Definition get_ptm_enzymes_from_file (file_name : string) (dict : PyVal) : M W PyVal :=
  sites <- __get_sites_from_files file_name ;;
  __get_data pandas sites get_ptm_enzymes_from_list dict.

Definition get_ptm_ppi_from_file (file_name : string) (dict : PyVal) : M W PyVal :=
  sites <- __get_sites_from_files file_name ;;
  __get_data pandas sites get_ptm_ppi_from_list dict.

End WithTransport.

End Endpoints.

(** ** Test doubles used to run the code on concrete inputs *)

Module Samples.

Local Open Scope string_scope.

Definition site_at (k : nat) : Site := mkSite "P27361" "Y" (show_nat k).

Definition sample_sites (n : nat) : list Site := map site_at (seq 0 n).

(** An endpoint function that answers from a script: the world is the
    number of calls made so far. *)
Definition scripted (script : list (Outcome PyVal)) : Invoker nat :=
  fun _ _ n => (nth n script (Returned PyNone), S n).

(** A frame with one column and [n] rows numbered from [start]. *)
Definition frame_of_rows (start n : nat) : DataFrame :=
  mkFrame ["site"] (map (fun k => [CInt (Z.of_nat k)]) (seq start n)).

Definition cell_val (c : Cell) : PyVal :=
  match c with
  | CNaN => PyNone
  | CInt z => PyInt z
  | CStr s => PyStr s
  end.

Fixpoint lookup_cell (labels : list string) (row : list Cell) (c : string) : Cell :=
  match labels, row with
  | l :: labels', x :: row' => if (l =? c)%string then x else lookup_cell labels' row' c
  | _, _ => CNaN
  end.

Fixpoint frames_of (objs : list PyVal) : Outcome (list DataFrame) :=
  match objs with
  | [] => Returned []
  | PyDataFrame df :: rest => obind (frames_of rest) (fun dfs => Returned (df :: dfs))
  | PyNone :: rest => frames_of rest
  | _ :: _ => Raised (TypeError "cannot concatenate object; only Series and DataFrame objs are valid")
  end.

(** Row-wise concatenation over the union of the columns. *)
Definition stack_rows (objs : list PyVal) : Outcome PyVal :=
  obind (frames_of objs) (fun dfs =>
  match dfs with
  | [] => Raised (ValueError "No objects to concatenate")
  | _ =>
      let labels := nodup string_dec (concat (map columns dfs)) in
      Returned (PyDataFrame (mkFrame labels
        (concat (map (fun df => map (fun row => map (lookup_cell (columns df) row) labels) (rows df)) dfs))))
  end).

Definition column_items (df : DataFrame) : Outcome (list (PyKey * PyVal)) :=
  Returned (map (fun c => (KStr c, PyList (map (fun row => cell_val (lookup_cell (columns df) row c)) (rows df))))
                (columns df)).

(** A stand-in for pandas. *)
Definition reference_pandas : Pandas := mkPandas stack_rows column_items.

(** A transport that answers every request with the same status and body. *)
Definition constant_transport (status : Z) (body : string)
  : Endpoints.Request -> M unit Endpoints.Response :=
  fun _ w => (Returned (Endpoints.mkResponse status body), w).

(** Codecs for the bodies used below: the JSON text [[]], and a CSV text
    that is one header cell and no row. *)
Definition sample_codec : Endpoints.Codec :=
  Endpoints.mkCodec
    (fun t => if (t =? "[]")%string then Returned (PyList [])
              else Raised (OtherError "JSONDecodeError"))
    (fun t => Returned (PyDataFrame (mkFrame [t] [])))
    (fun _ => "[]").

End Samples.

(** ** Vocabulary of the statements *)

(** The log [calls] is what [f] does when it is called on the logged
    arguments one after the other from world [w], ending in world [w']. *)
Fixpoint replays {W : Type} (f : Invoker W) (w : W) (calls : list Call) (w' : W) : Prop :=
  match calls with
  | [] => w' = w
  | c :: rest =>
      call_outcome c = fst (f (call_items c) (call_flag c) w) /\
      replays f (snd (f (call_items c) (call_flag c) w)) rest w'
  end.

(** The truth test of line 523 lets the value through. *)
Definition truthy (v : PyVal) : bool :=
  match py_bool v with
  | Returned true => true
  | _ => false
  end.

(** The truth test of line 523 drops the value. *)
Definition falsy (v : PyVal) : bool :=
  match py_bool v with
  | Returned false => true
  | _ => false
  end.

(** The call returned a value that [if chunk_result:] drops. *)
Definition call_falsy (c : Call) : bool :=
  match call_outcome c with
  | Returned v => falsy v
  | Raised _ => false
  end.

Definition is_dict (v : PyVal) : bool :=
  match v with PyDict _ => true | _ => false end.

Definition is_frame (v : PyVal) : bool :=
  match v with PyDataFrame _ => true | _ => false end.

(** What one retained chunk result contributes to the flat sequence: its
    elements when it is a list, itself otherwise. *)
Definition splice (v : PyVal) : list PyVal :=
  match v with
  | PyList items => items
  | _ => [v]
  end.

(** The value the entries [es] bind to key [k]: the last one when the key
    occurs more than once. *)
Definition binding (es : list (PyKey * PyVal)) (k : PyKey) : option PyVal :=
  fold_left (fun acc kv => if key_eqb (fst kv) k then Some (snd kv) else acc) es None.

(** The one-entry mapping an endpoint returns for an empty body. *)
Definition sentinel (key : PyKey) (message : string) : PyVal :=
  PyDict [(key, PyStr message)].

Definition row_count (v : PyVal) : option nat :=
  match v with
  | PyDataFrame df => Some (length (rows df))
  | _ => None
  end.

(** ** Inputs used in the worked cases *)

Module Cases.

Import Samples.

Local Open Scope string_scope.

Definition sites_1000 : list Site := sample_sites 1000.
Definition sites_1001 : list Site := sample_sites 1001.
Definition sites_2500 : list Site := sample_sites 2500.

(** Three chunk results [[a]], [[b, c]], [[d]]. *)
Definition three_lists : list (Outcome PyVal) :=
  [Returned (PyList [PyStr "a"]);
   Returned (PyList [PyStr "b"; PyStr "c"]);
   Returned (PyList [PyStr "d"])].

(** Tables of 400, 600 and 1 rows, and three chunk results that are these
    tables. *)
Definition tables_400_600_1 : list PyVal :=
  [PyDataFrame (frame_of_rows 0 400);
   PyDataFrame (frame_of_rows 400 600);
   PyDataFrame (frame_of_rows 1000 1)].

Definition three_tables : list (Outcome PyVal) := map Returned tables_400_600_1.

(** Chunk A returns [{"x": 1}], chunk B returns [{"x": 2}]. *)
Definition two_mappings : list (Outcome PyVal) :=
  [Returned (PyDict [(KStr "x", PyInt 1)]);
   Returned (PyDict [(KStr "x", PyInt 2)])].

(** Every chunk comes back empty, each in its own way. *)
Definition three_empties : list (Outcome PyVal) :=
  [Returned (PyList []); Returned (PyDict []); Returned PyNone].

(** A first result that is neither a table nor a mapping. *)
Definition odd_shapes : list (Outcome PyVal) :=
  [Returned (PyStr "busy"); Returned (PyList [PyInt 1]); Returned (PyInt 7)].

(** The second of three chunks fails. *)
Definition second_fails : list (Outcome PyVal) :=
  [Returned (PyList [PyStr "a"]); Raised (HTTPError 503); Returned (PyList [PyStr "d"])].

(** A mapping, then a string. *)
Definition mapping_then_text : list (Outcome PyVal) :=
  [Returned (PyDict [(KStr "x", PyInt 1)]); Returned (PyStr "busy")].

(** The first chunk fails. *)
Definition first_fails : list (Outcome PyVal) :=
  [Raised (HTTPError 503); Returned (PyList [PyStr "d"])].

(** An empty chunk, the sentinel of the batch endpoint, an empty list. *)
Definition with_sentinel : list (Outcome PyVal) :=
  [Returned (PyList [PyDict [(KStr "enz", PyStr "P28482")]]);
   Returned (sentinel (KBuiltin "id") "No ptm enzymes found for the given ID.");
   Returned (PyList [])].

End Cases.

(** ** The module globals and the file reader *)

(** [set_host_url] and [set_api_version] assign the two globals; the
    configuration is passed along instead of being global. *)
Definition set_host_url (url : string) (cfg : Endpoints.Config) : Endpoints.Config :=
  Endpoints.mkConfig url (Endpoints.selected_version cfg).

Definition set_api_version (version : option string) (cfg : Endpoints.Config)
  : Endpoints.Config :=
  Endpoints.mkConfig (Endpoints.host_url cfg) version.

(** What [csv.reader(csvfile, delimiter='\t')] yields while the file is
    read: rows of fields, and possibly an exception once they are used up. *)
Record Reading : Type := mkReading {
  rows_read : list (list string);
  read_error : option PyExn
}.

(** The target [substrate_ac, site_residue, site_position] of the [for]
    statement: a row unpacks when it has three fields. *)
Definition unpack_site (row : list string) : Outcome Site :=
  match row with
  | [substrate_ac; site_residue; site_position] =>
      Returned (mkSite substrate_ac site_residue site_position)
  | _ :: _ :: _ :: _ :: _ =>
      Raised (ValueError "too many values to unpack (expected 3)")
  | _ =>
      Raised (ValueError ("not enough values to unpack (expected 3, got "
                          ++ show_nat (length row) ++ ")")%string)
  end.

(** Lines 485-491: one site appended per row, in reading order. *)
Fixpoint read_sites (rows : list (list string)) (error : option PyExn)
  (sites : list Site) : Outcome (list Site) :=
  match rows with
  | [] =>
      match error with
      | Some e => Raised e
      | None => Returned sites
      end
  | row :: rest =>
      obind (unpack_site row) (fun site => read_sites rest error (sites ++ [site]))
  end.

(** [open_reader] stands for [open(file_name)] and the reader put on it. *)
Definition __get_sites_from_files {W : Type} (open_reader : string -> M W Reading)
  (file_name : string) : M W (list Site) :=
  reading <- open_reader file_name ;;
  lift (read_sites (rows_read reading) (read_error reading) []).

(** The row a site was read from. *)
Definition row_of_site (s : Site) : list string :=
  [substrate_ac s; site_residue s; site_position s].

(** ** Observing the requests

    As for the calls of a batch: the transport is wrapped so that every
    request is appended to a log next to the world; the other effects leave
    the log alone. *)

Definition logging {W : Type} (requests : Endpoints.Request -> M W Endpoints.Response)
  : Endpoints.Request -> M (W * list Endpoints.Request) Endpoints.Response :=
  fun req st =>
    let (o, w') := requests req (fst st) in
    (o, (w', snd st ++ [req])).

Definition unlogged {W L A : Type} (m : M W A) : M (W * L) A :=
  fun st =>
    let (o, w') := m (fst st) in
    (o, (w', snd st)).

(** The request of [get_ptm_enzymes_from_list] for a list of sites. *)
Definition enzymes_request (cfg : Endpoints.Config) (codec : Endpoints.Codec)
  (items : list Site) (dict : PyVal) : Endpoints.Request :=
  Endpoints.mkRequest "POST"
    (Endpoints.__get_base_url cfg ++ "/batch_ptm_enzymes")%string
    [] (Some (Endpoints.json_dumps codec items)) (Endpoints.accept_headers dict).

(** The request of [get_ptm_ppi_from_list] for a list of sites. *)
Definition ppi_request (cfg : Endpoints.Config) (codec : Endpoints.Codec)
  (items : list Site) (dict : PyVal) : Endpoints.Request :=
  Endpoints.mkRequest "POST"
    (Endpoints.__get_base_url cfg ++ "/batch_ptm_ppi")%string
    [] (Some (Endpoints.json_dumps codec items)) (Endpoints.accept_headers dict).

(** The two file functions over the reader above, with the requests
    logged. *)
Definition enzymes_from_file {W : Type} (cfg : Endpoints.Config) (codec : Endpoints.Codec)
  (requests : Endpoints.Request -> M W Endpoints.Response) (pandas : Pandas)
  (open_reader : string -> M W Reading) (file_name : string) (dict : PyVal)
  : M (W * list Endpoints.Request) PyVal :=
  Endpoints.get_ptm_enzymes_from_file cfg codec (logging requests) pandas
    (fun name => unlogged (__get_sites_from_files open_reader name)) file_name dict.

Definition ppi_from_file {W : Type} (cfg : Endpoints.Config) (codec : Endpoints.Codec)
  (requests : Endpoints.Request -> M W Endpoints.Response) (pandas : Pandas)
  (open_reader : string -> M W Reading) (file_name : string) (dict : PyVal)
  : M (W * list Endpoints.Request) PyVal :=
  Endpoints.get_ptm_ppi_from_file cfg codec (logging requests) pandas
    (fun name => unlogged (__get_sites_from_files open_reader name)) file_name dict.

(** ** More inputs for the worked cases *)

Module MoreCases.

Local Open Scope string_scope.

(** A file of [n] well-formed rows. *)
Definition rows_of (n : nat) : list (list string) :=
  map row_of_site (Samples.sample_sites n).

(** A reader over an in-memory directory: one file of three rows, one with a
    blank second line, one whose reading breaks off; any other name is
    missing. *)
Definition sample_reader : string -> M unit Reading :=
  fun name w =>
    if (name =? "sites.tsv")%string then (Returned (mkReading (rows_of 3) None), w)
    else if (name =? "blank.tsv")%string then
      (Returned (mkReading [["P27361"; "Y"; "187"]; []; ["Q15796"; "S"; "465"]] None), w)
    else if (name =? "broken.tsv")%string then
      (Returned (mkReading (rows_of 2) (Some (OtherError "UnicodeDecodeError"))), w)
    else if (name =? "big.tsv")%string then (Returned (mkReading (rows_of 2500) None), w)
    else (Raised (OtherError "FileNotFoundError"), w).

(** Three chunk results that are tables with a header and no row. *)
Definition three_empty_tables : list (Outcome PyVal) :=
  [Returned (PyDataFrame (Samples.frame_of_rows 0 0));
   Returned (PyDataFrame (Samples.frame_of_rows 0 0));
   Returned (PyDataFrame (Samples.frame_of_rows 0 0))].

(** A mapping with data, the sentinel of the list function, an empty
    list. *)
Definition mapping_and_sentinel : list (Outcome PyVal) :=
  [Returned (PyDict [(KStr "P27361", PyStr "P28482")]);
   Returned (sentinel (KBuiltin "id") "No ptm enzymes found for the given ID.");
   Returned (PyList [])].

(** A transport that fails to connect. *)
Definition failing_transport : Endpoints.Request -> M unit Endpoints.Response :=
  fun _ w => (Raised (OtherError "ConnectionError"), w).

End MoreCases.

(** The exception an answer of the transport stands for, if any: the one
    the transport raised, or [HTTPError] for a status from 400 to 599. *)
Definition failure_of (o : Outcome Endpoints.Response) : option PyExn :=
  match o with
  | Raised e => Some e
  | Returned result =>
      if ((400 <=? Endpoints.status_code result) && (Endpoints.status_code result <? 600))%Z
      then Some (HTTPError (Endpoints.status_code result))
      else None
  end.

(** The requests logged by a run. *)
Definition requests_of {W A : Type} (r : Outcome A * (W * list Endpoints.Request))
  : list Endpoints.Request := snd (snd r).

(** * Properties *)

(** ** Slicing a list by a stepped range *)

Section Partition.

Context {A : Type}.
Variable step : nat.
Hypothesis step_pos : 0 < step.

Lemma firstn_plus (a b : nat) (l : list A) :
  firstn (a + b) l = firstn a l ++ firstn b (skipn a l).
Proof.
  revert l; induction a as [|a IH]; intros l.
  - reflexivity.
  - destruct l as [|x l]; simpl.
    + now rewrite firstn_nil.
    + now rewrite IH.
Qed.

Lemma slice_length (l : list A) (lo : nat) :
  length (slice l lo (lo + step)) = Nat.min step (length l - lo).
Proof.
  unfold slice.
  replace (lo + step - lo) with step by lia.
  now rewrite length_firstn, length_skipn.
Qed.

(** The range has one start per block of [step] items, the last block
    possibly short. *)
Lemma py_range_length (n : nat) :
  length (py_range 0 n step) = (n + step - 1) / step.
Proof.
  unfold py_range.
  rewrite length_map, length_seq.
  now rewrite Nat.sub_0_r.
Qed.

Lemma py_range_nth (n k : nat) :
  k < (n + step - 1) / step ->
  nth_error (py_range 0 n step) k = Some (k * step).
Proof.
  intros Hk. unfold py_range.
  rewrite Nat.sub_0_r.
  rewrite nth_error_map, nth_error_seq.
  apply Nat.ltb_lt in Hk. now rewrite Hk.
Qed.

Lemma blocks_cover (n : nat) : n <= ((n + step - 1) / step) * step.
Proof.
  pose proof (Nat.div_mod_eq (n + step - 1) step) as E.
  pose proof (Nat.mod_upper_bound (n + step - 1) step) as B.
  nia.
Qed.

Lemma blocks_tight (n : nat) : 0 < n -> ((n + step - 1) / step - 1) * step < n.
Proof.
  intros Hn.
  pose proof (Nat.div_mod_eq (n + step - 1) step) as E.
  pose proof (Nat.mod_upper_bound (n + step - 1) step) as B.
  nia.
Qed.

Lemma concat_slices (l : list A) (m j : nat) :
  concat (map (fun i => slice l i (i + step)) (map (fun k => k * step) (seq j m)))
  = firstn (m * step) (skipn (j * step) l).
Proof.
  revert j; induction m as [|m IH]; intros j.
  - reflexivity.
  - cbn [seq map concat].
    rewrite IH. unfold slice.
    replace (j * step + step - j * step) with step by lia.
    replace (S m * step) with (step + m * step) by lia.
    rewrite firstn_plus, skipn_skipn.
    reflexivity.
Qed.

(** Concatenating the slices in range order gives the list back. *)
Lemma concat_range_slices (l : list A) :
  concat (map (fun i => slice l i (i + step)) (py_range 0 (length l) step)) = l.
Proof.
  unfold py_range. rewrite Nat.sub_0_r.
  rewrite (map_ext (fun k => 0 + k * step) (fun k => k * step)) by reflexivity.
  rewrite concat_slices. cbn [Nat.mul skipn].
  apply firstn_all2, blocks_cover.
Qed.

Lemma full_block_length (l : list A) (k : nat) :
  S k < (length l + step - 1) / step ->
  length (slice l (k * step) (k * step + step)) = step.
Proof.
  intros Hk. rewrite slice_length.
  assert (0 < length l) as Hl.
  { destruct (length l) as [|n] eqn:E; [|lia].
    exfalso. replace (0 + step - 1) with (step - 1) in Hk by lia.
    rewrite Nat.div_small in Hk by lia. lia. }
  pose proof (blocks_tight (length l) Hl) as T.
  nia.
Qed.

Lemma last_block_length (l : list A) (k : nat) :
  0 < length l ->
  S k = (length l + step - 1) / step ->
  length (slice l (k * step) (k * step + step))
  = if length l mod step =? 0 then step else length l mod step.
Proof.
  intros Hl Hk. rewrite slice_length.
  pose proof (blocks_tight (length l) Hl) as T.
  pose proof (blocks_cover (length l)) as C.
  rewrite <- Hk in T, C.
  replace (S k - 1) with k in T by lia.
  set (r := length l - k * step) in *.
  assert (length l = k * step + r) as E by (unfold r; lia).
  assert (0 < r <= step) as [R1 R2] by (unfold r; nia).
  replace (Nat.min step r) with r by lia.
  destruct (Nat.eq_dec r step) as [->|Hne].
  - replace (length l mod step) with 0.
    + reflexivity.
    + rewrite E. replace (k * step + step) with (0 + S k * step) by lia.
      now rewrite Nat.Div0.mod_add, Nat.Div0.mod_0_l.
  - replace (length l mod step) with r.
    + destruct (Nat.eqb_spec r 0); [lia | reflexivity].
    + rewrite E. rewrite Nat.add_comm, Nat.Div0.mod_add.
      symmetry. apply Nat.mod_small. lia.
Qed.

End Partition.

(** ** The loop of [__get_data] and the calls it makes *)

Section BatchFacts.

Context {W : Type}.
Variable pandas : Pandas.
Variable sites : list Site.
Variable f : Invoker W.
Variable d : PyVal.

(** What the loop leaves behind: the calls it made, on which chunks, and
    either the retained results or the exception that stopped it. *)
Lemma for_chunks_traced (starts : list nat) :
  forall acc w log out w' log',
    for_chunks sites (traced f) d starts acc (w, log) = (out, (w', log')) ->
    exists calls,
      log' = log ++ calls /\
      replays f w calls w' /\
      map call_items calls
      = firstn (length calls) (map (fun i => slice sites i (i + 1000)) starts) /\
      Forall (fun c => call_flag c = d) calls /\
      match out with
      | Returned all =>
          length calls = length starts /\
          forallb call_ok calls = true /\
          all = acc ++ retained calls
      | Raised e =>
          exists pre last,
            calls = pre ++ [last] /\
            forallb call_ok pre = true /\
            abort_of last = Some e
      end.
Proof.
  induction starts as [|i rest IH]; intros acc w log out w' log' H.
  - cbn [for_chunks] in H. unfold ret in H. inversion H; subst.
    exists []. rewrite !app_nil_r. repeat split; constructor.
  - cbn [for_chunks] in H. unfold bind, traced, lift in H. cbn [fst snd] in H.
    destruct (f (slice sites i (i + 1000)) d w) as [o w1] eqn:Ef.
    set (c := mkCall (slice sites i (i + 1000)) d o) in *.
    assert (forall w2, replays f w1 [] w2 -> replays f w [c] w2) as Hone.
    { intros w2 Hw2. cbn [replays c call_items call_flag call_outcome].
      rewrite Ef. split; [reflexivity | exact Hw2]. }
    destruct o as [v|e].
    + destruct (py_bool v) as [b|e] eqn:Eb.
      * apply IH in H. destruct H as (calls & Hlog & Hrep & Hitems & Hflag & Hout).
        exists (c :: calls). split; [|split; [|split; [|split]]].
        -- now rewrite Hlog, <- app_assoc.
        -- cbn [replays c call_items call_flag call_outcome].
           rewrite Ef. split; [reflexivity | exact Hrep].
        -- cbn [map length firstn]. now rewrite Hitems.
        -- constructor; [reflexivity | assumption].
        -- assert (call_ok c = true) as Hc by (unfold call_ok, abort_of, c; cbn; now rewrite Eb).
           destruct out as [all|e].
           ++ destruct Hout as (Hlen & Hok & Hall).
              split; [cbn; lia|]. split; [cbn [forallb]; now rewrite Hc, Hok|].
              rewrite Hall. unfold retained. cbn [flat_map].
              unfold kept at 2, c. cbn [call_outcome]. rewrite Eb.
              destruct b; [now rewrite <- app_assoc | reflexivity].
           ++ destruct Hout as (pre & last & Hcalls & Hpre & Hlast).
              exists (c :: pre), last. split; [now rewrite Hcalls|].
              split; [cbn [forallb]; now rewrite Hc, Hpre | assumption].
      * inversion H; subst. exists [c]. split; [reflexivity|].
        split; [now apply Hone|].
        split; [reflexivity|]. split; [repeat constructor|].
        exists [], c. repeat split. unfold abort_of, c. cbn. now rewrite Eb.
    + inversion H; subst. exists [c]. split; [reflexivity|].
      split; [now apply Hone|].
      split; [reflexivity|]. split; [repeat constructor|].
      exists [], c. repeat split.
Qed.

(** Logging does not change what the loop computes. *)
Lemma for_chunks_erase (starts : list nat) :
  forall acc w log,
    fst (for_chunks sites (traced f) d starts acc (w, log))
    = fst (for_chunks sites f d starts acc w) /\
    fst (snd (for_chunks sites (traced f) d starts acc (w, log)))
    = snd (for_chunks sites f d starts acc w).
Proof.
  induction starts as [|i rest IH]; intros acc w log.
  - split; reflexivity.
  - cbn [for_chunks]. unfold bind, traced, lift. cbn [fst snd].
    destruct (f (slice sites i (i + 1000)) d w) as [[v|e] w1]; [|split; reflexivity].
    destruct (py_bool v) as [b|e]; [|split; reflexivity].
    apply IH.
Qed.

(** A batch over more than 1000 sites: the calls are made on an initial
    run of the chunks, with the caller's flag; either every call yields a
    testable result, all chunks are called and the retained results are
    merged, or the first call that does not stops the batch with its
    exception. *)
Lemma run_batch_multi (w : W) :
  1000 < length sites ->
  let r := run_batch pandas sites f d w in
  replays f w (calls_of r) (world_of r) /\
  map call_items (calls_of r) = firstn (length (calls_of r)) (chunks_of sites) /\
  Forall (fun c => call_flag c = d) (calls_of r) /\
  ((forallb call_ok (calls_of r) = true /\
    length (calls_of r) = length (chunks_of sites) /\
    result_of r = merge_chunks pandas (retained (calls_of r)) d)
   \/
   (exists pre last e,
      calls_of r = pre ++ [last] /\
      forallb call_ok pre = true /\
      abort_of last = Some e /\
      result_of r = Raised e)).
Proof.
  intros Hlen r. subst r. unfold run_batch, __get_data, calls_of, result_of, world_of.
  destruct (Nat.leb_spec (length sites) 1000) as [Hle|_]; [lia|].
  unfold bind.
  destruct (for_chunks sites (traced f) d (py_range 0 (length sites) 1000) [] (w, []))
    as [out [w' log']] eqn:E.
  apply for_chunks_traced in E.
  destruct E as (calls & Hlog & Hrep & Hitems & Hflag & Hout).
  cbn [app] in Hlog. subst log'.
  destruct out as [all|e]; cbn [fst snd].
  - destruct Hout as (Hn & Hok & Hall). cbn [app] in Hall. subst all.
    unfold lift. cbn [fst snd].
    split; [exact Hrep|].
    split; [exact Hitems|]. split; [exact Hflag|]. left.
    split; [exact Hok|]. split; [|reflexivity].
    unfold chunks_of. now rewrite length_map.
  - destruct Hout as (pre & last & Hcalls & Hpre & Hlast).
    split; [exact Hrep|].
    split; [exact Hitems|]. split; [exact Hflag|]. right.
    exists pre, last, e. repeat split; assumption.
Qed.

(** The logged run and the plain run agree on the result and the world. *)
Lemma run_batch_erase (w : W) :
  result_of (run_batch pandas sites f d w) = fst (__get_data pandas sites f d w) /\
  world_of (run_batch pandas sites f d w) = snd (__get_data pandas sites f d w).
Proof.
  unfold run_batch, __get_data, result_of, world_of.
  destruct (length sites <=? 1000).
  - unfold traced. cbn [fst snd]. destruct (f sites d w); split; reflexivity.
  - unfold bind.
    pose proof (for_chunks_erase (py_range 0 (length sites) 1000) [] w []) as [E1 E2].
    destruct (for_chunks sites (traced f) d (py_range 0 (length sites) 1000) [] (w, []))
      as [o1 [w1 l1]].
    destruct (for_chunks sites f d (py_range 0 (length sites) 1000) [] w) as [o2 w2].
    cbn [fst snd] in E1, E2. subst o2 w2.
    destruct o1; split; reflexivity.
Qed.

(** When every call is fine, the batch is not stopped. *)
Lemma run_batch_all_ok (w : W) :
  1000 < length sites ->
  let r := run_batch pandas sites f d w in
  forallb call_ok (calls_of r) = true ->
  map call_items (calls_of r) = chunks_of sites /\
  result_of r = merge_chunks pandas (retained (calls_of r)) d.
Proof.
  intros Hlen r Hok.
  destruct (run_batch_multi w Hlen)
    as (_ & Hitems & _ & [(_ & Hn & Hres) | (pre & last & e & Hc & _ & Hab & _)]).
  - fold r in Hitems, Hn, Hres. split; [|exact Hres].
    rewrite Hitems, Hn. apply firstn_all.
  - fold r in Hc. rewrite Hc, forallb_app in Hok.
    apply andb_true_iff in Hok. destruct Hok as [_ Hl]. cbn in Hl.
    unfold call_ok in Hl. rewrite Hab in Hl. discriminate.
Qed.

(** An endpoint function that always returns, and never a table, passes
    the truth test at every call. *)
Lemma replays_calls_ok (calls : list Call) :
  (forall items flag w0, exists v,
      fst (f items flag w0) = Returned v /\ is_frame v = false) ->
  forall w w', replays f w calls w' -> forallb call_ok calls = true.
Proof.
  intros Hf. induction calls as [|c calls IH]; intros w w' Hrep.
  - reflexivity.
  - cbn [replays] in Hrep. destruct Hrep as [Hout Hrest].
    cbn [forallb]. rewrite (IH _ _ Hrest), andb_true_r.
    destruct (Hf (call_items c) (call_flag c) w) as (v & Hv & Hframe).
    unfold call_ok, abort_of. rewrite Hout, Hv.
    destruct v; try reflexivity. discriminate.
Qed.

Lemma total_invoker_calls_ok (w : W) :
  1000 < length sites ->
  (forall items flag w0, exists v,
      fst (f items flag w0) = Returned v /\ is_frame v = false) ->
  forallb call_ok (calls_of (run_batch pandas sites f d w)) = true.
Proof.
  intros Hlen Hf.
  destruct (run_batch_multi w Hlen) as (Hrep & _).
  exact (replays_calls_ok _ Hf _ _ Hrep).
Qed.

End BatchFacts.

(** ** Small inputs go straight through *)

(** C1. A batch over at most 1000 sites is the single call
    [get_data_func(sites, dict=dict)]: it returns what that call returns
    (value or exception) and leaves the world that call leaves, and the only
    call made is the one on the whole list, so nothing is partitioned. *)
Theorem small_batch_is_direct_call :
  forall (pandas : Pandas) (W : Type) (sites : list Site) (f : Invoker W)
         (d : PyVal) (w : W),
    length sites <= 1000 ->
    __get_data pandas sites f d w = f sites d w /\
    calls_of (run_batch pandas sites f d w) = [mkCall sites d (fst (f sites d w))].
Proof.
  intros pandas W sites f d w Hlen.
  apply Nat.leb_le in Hlen.
  unfold run_batch, __get_data, calls_of. rewrite Hlen.
  split; [reflexivity|].
  unfold traced. cbn [fst snd]. now destruct (f sites d w).
Qed.

(** A list of exactly 1000 sites is passed on whole. *)
Lemma small_batch_is_direct_call_witness :
  length Cases.sites_1000 <= 1000 /\
  __get_data Samples.reference_pandas Cases.sites_1000
    (Samples.scripted Cases.three_lists) (PyBool true) 0
  = Samples.scripted Cases.three_lists Cases.sites_1000 (PyBool true) 0.
Proof.
  assert (length Cases.sites_1000 <= 1000) as H
    by (apply Nat.leb_le; vm_compute; reflexivity).
  split; [exact H|].
  exact (proj1 (small_batch_is_direct_call Samples.reference_pandas nat
                  Cases.sites_1000 (Samples.scripted Cases.three_lists)
                  (PyBool true) 0 H)).
Defined.

(** ** Chunks and the order of the calls *)

Lemma chunks_of_length (sites : list Site) :
  length (chunks_of sites) = (length sites + 1000 - 1) / 1000.
Proof.
  unfold chunks_of. rewrite length_map. apply py_range_length.
Qed.

Lemma chunks_of_nth (sites : list Site) (k : nat) :
  k < length (chunks_of sites) ->
  nth_error (chunks_of sites) k = Some (slice sites (k * 1000) (k * 1000 + 1000)).
Proof.
  intros Hk. rewrite chunks_of_length in Hk.
  unfold chunks_of. rewrite nth_error_map.
  now rewrite py_range_nth by (lia || assumption).
Qed.

(** A call that raises, or whose result cannot be tested, is the last call
    of the batch, and the batch ends with its exception. *)
Lemma failing_call_ends_batch
  (pandas : Pandas) (W : Type) (sites : list Site) (f : Invoker W) (d : PyVal) (w : W) :
  1000 < length sites ->
  let r := run_batch pandas sites f d w in
  forall k c e,
    nth_error (calls_of r) k = Some c ->
    abort_of c = Some e ->
    length (calls_of r) = S k /\ result_of r = Raised e.
Proof.
  intros Hlen r k c e Hnth Hab.
  assert (call_ok c = false) as Hbad by (unfold call_ok; now rewrite Hab).
  destruct (run_batch_multi pandas sites f d w Hlen)
    as (_ & _ & _ & [(Hok & _) | (pre & last & e' & Hc & Hpre & Hlast & Hres)]).
  - fold r in Hok. rewrite forallb_forall in Hok.
    rewrite (Hok c (nth_error_In _ _ Hnth)) in Hbad. discriminate.
  - fold r in Hc, Hres. rewrite Hc in *. rewrite length_app. cbn [length].
    destruct (Nat.lt_ge_cases k (length pre)) as [Hlt|Hge].
    + rewrite nth_error_app1 in Hnth by assumption.
      rewrite forallb_forall in Hpre.
      rewrite (Hpre c (nth_error_In _ _ Hnth)) in Hbad. discriminate.
    + assert (k < length (pre ++ [last])) as Hk
        by (apply nth_error_Some; congruence).
      rewrite length_app in Hk. cbn [length] in Hk.
      assert (k = length pre) as -> by lia.
      rewrite nth_error_app2, Nat.sub_diag in Hnth by lia.
      cbn in Hnth. injection Hnth as ->.
      split; [lia|]. rewrite Hres. congruence.
Qed.

(** The claim C2 does not hold for every batch: a call that raises, or that
    returns a table, is the last call of the batch, so the later chunks are
    never passed to the endpoint function. *)
Lemma later_chunks_not_called :
  1000 < length Cases.sites_1001 /\
  length (chunks_of Cases.sites_1001) = 2 /\
  map call_items
    (calls_of (run_batch Samples.reference_pandas Cases.sites_1001
                 (Samples.scripted Cases.first_fails) PyNone 0))
  <> chunks_of Cases.sites_1001 /\
  map call_items
    (calls_of (run_batch Samples.reference_pandas Cases.sites_1001
                 (Samples.scripted Cases.three_tables) PyNone 0))
  <> chunks_of Cases.sites_1001.
Proof.
  split; [apply Nat.ltb_lt; vm_compute; reflexivity|].
  split; [vm_compute; reflexivity|].
  split; intros H; apply (f_equal (@length (list Site))) in H;
    vm_compute in H; discriminate H.
Qed.

(** C2, amended. For more than 1000 sites the chunks are the consecutive
    blocks of 1000 sites, the last one holding the remainder (1000 when the
    remainder is zero), and their concatenation is the input.  The endpoint
    function is called on the chunks in input order, each at most once, and
    the first call that raises ends the batch; when every call returns a
    result whose truth value can be taken, every chunk is called exactly
    once. *)
Theorem chunks_partition_and_call_order :
  forall (pandas : Pandas) (W : Type) (sites : list Site) (f : Invoker W)
         (d : PyVal) (w : W),
    1000 < length sites ->
    let r := run_batch pandas sites f d w in
    concat (chunks_of sites) = sites /\
    (forall k, k < length (chunks_of sites) ->
       nth_error (chunks_of sites) k = Some (firstn 1000 (skipn (k * 1000) sites))) /\
    (forall k chunk, nth_error (chunks_of sites) k = Some chunk ->
       length chunk =
         if S k <? length (chunks_of sites) then 1000
         else if length sites mod 1000 =? 0 then 1000 else length sites mod 1000) /\
    map call_items (calls_of r) = firstn (length (calls_of r)) (chunks_of sites) /\
    Forall (fun c => call_flag c = d) (calls_of r) /\
    replays f w (calls_of r) (world_of r) /\
    (forall k c e, nth_error (calls_of r) k = Some c -> call_outcome c = Raised e ->
       length (calls_of r) = S k) /\
    (forallb call_ok (calls_of r) = true ->
       map call_items (calls_of r) = chunks_of sites).
Proof.
  intros pandas W sites f d w Hlen r.
  assert (0 < 1000) as Hpos by lia.
  split; [apply (concat_range_slices 1000 Hpos)|].
  split.
  { intros k Hk. rewrite (chunks_of_nth sites k Hk). unfold slice.
    do 2 f_equal. lia. }
  split.
  { intros k chunk Hnth.
    assert (k < length (chunks_of sites)) as Hk
      by (apply nth_error_Some; congruence).
    rewrite (chunks_of_nth sites k Hk) in Hnth. injection Hnth as <-.
    rewrite chunks_of_length in *.
    destruct (Nat.ltb_spec (S k) ((length sites + 1000 - 1) / 1000)) as [Hlt|Hge].
    - now apply full_block_length.
    - apply last_block_length; lia. }
  destruct (run_batch_multi pandas sites f d w Hlen)
    as (Hrep & Hitems & Hflag & Hcases).
  fold r in Hrep, Hitems, Hflag, Hcases.
  split; [exact Hitems|]. split; [exact Hflag|]. split; [exact Hrep|].
  split.
  - intros k c e Hnth Hraised.
    apply (failing_call_ends_batch pandas W sites f d w Hlen k c e Hnth).
    unfold abort_of. now rewrite Hraised.
  - intros Hok. apply (run_batch_all_ok pandas sites f d w Hlen Hok).
Qed.

(** 2500 sites: chunks of 1000, 1000 and 500 sites, called in that order. *)
Lemma chunks_partition_and_call_order_witness :
  1000 < length Cases.sites_2500 /\
  map (@length Site) (chunks_of Cases.sites_2500) = [1000; 1000; 500] /\
  map call_items
    (calls_of (run_batch Samples.reference_pandas Cases.sites_2500
                 (Samples.scripted Cases.three_lists) (PyBool true) 0))
  = chunks_of Cases.sites_2500.
Proof.
  assert (1000 < length Cases.sites_2500) as H
    by (apply Nat.ltb_lt; vm_compute; reflexivity).
  split; [exact H|].
  split; [vm_compute; reflexivity|].
  destruct (chunks_partition_and_call_order Samples.reference_pandas nat
              Cases.sites_2500 (Samples.scripted Cases.three_lists)
              (PyBool true) 0 H) as (_ & _ & _ & _ & _ & _ & _ & Hall).
  apply Hall. vm_compute. reflexivity.
Defined.

(** ** Tables *)

(** On its own the merge step stacks tables: for retained tables of 400,
    600 and 1 rows it asks pandas for their concatenation, which has 1001
    rows. *)
Example merge_step_stacks_tables :
  obind (merge_chunks Samples.reference_pandas Cases.tables_400_600_1 (PyBool false))
        (fun v => Returned (row_count v))
  = Returned (Some 1001).
Proof. vm_compute. reflexivity. Qed.

(** But a table never gets that far: what the loop retains has a truth
    value, and a table has none. *)
Lemma retained_never_frames (calls : list Call) (v : PyVal) :
  In v (retained calls) -> is_frame v = false.
Proof.
  unfold retained. intros Hin.
  apply in_flat_map in Hin. destruct Hin as (c & _ & Hv).
  unfold kept in Hv.
  destruct (call_outcome c) as [v'|e]; [|contradiction].
  destruct (py_bool v') as [[|]|e] eqn:Eb; try contradiction.
  destruct Hv as [<-|[]].
  now destruct v'.
Qed.

(** C3, as the code behaves. In a batch over more than 1000 sites a call
    that returns a table ends the batch: the truth test of the retention
    filter raises [ValueError] on it, no later chunk is called and no
    merged table is returned. *)
Theorem table_result_ends_batch :
  forall (pandas : Pandas) (W : Type) (sites : list Site) (f : Invoker W)
         (d : PyVal) (w : W) (k : nat) (c : Call) (df : DataFrame),
    1000 < length sites ->
    let r := run_batch pandas sites f d w in
    nth_error (calls_of r) k = Some c ->
    call_outcome c = Returned (PyDataFrame df) ->
    result_of r = Raised ambiguous_truth /\ length (calls_of r) = S k.
Proof.
  intros pandas W sites f d w k c df Hlen r Hnth Hout.
  destruct (failing_call_ends_batch pandas W sites f d w Hlen k c ambiguous_truth Hnth)
    as [Hn Hres].
  - unfold abort_of. now rewrite Hout.
  - split; assumption.
Qed.

(** Tables of 400, 600 and 1 rows with [dict=False]: the batch raises after
    the first call. *)
Lemma table_result_ends_batch_witness :
  1000 < length Cases.sites_2500 /\
  result_of (run_batch Samples.reference_pandas Cases.sites_2500
               (Samples.scripted Cases.three_tables) (PyBool false) 0)
  = Raised ambiguous_truth /\
  length (calls_of (run_batch Samples.reference_pandas Cases.sites_2500
                      (Samples.scripted Cases.three_tables) (PyBool false) 0)) = 1.
Proof.
  assert (1000 < length Cases.sites_2500) as H
    by (apply Nat.ltb_lt; vm_compute; reflexivity).
  split; [exact H|].
  apply (table_result_ends_batch Samples.reference_pandas nat Cases.sites_2500
           (Samples.scripted Cases.three_tables) (PyBool false) 0 0
           (mkCall (slice Cases.sites_2500 0 1000) (PyBool false)
              (Returned (PyDataFrame (Samples.frame_of_rows 0 400))))
           (Samples.frame_of_rows 0 400) H);
    vm_compute; reflexivity.
Defined.

(** ** List mode *)

Lemma fold_flatten_step (l acc : list PyVal) :
  fold_left flatten_step l acc = acc ++ concat (map splice l).
Proof.
  revert acc; induction l as [|v l IH]; intros acc; cbn [fold_left map concat].
  - now rewrite app_nil_r.
  - rewrite IH, app_assoc. f_equal. now destruct v.
Qed.

Lemma merge_chunks_list_mode (pandas : Pandas) (all_chunks : list PyVal) :
  merge_chunks pandas all_chunks (PyBool true)
  = Returned (PyList (concat (map splice all_chunks))).
Proof.
  destruct all_chunks as [|first rest]; [reflexivity|].
  unfold merge_chunks. cbn [is_True].
  now rewrite fold_flatten_step.
Qed.

(** C4. In a batch over more than 1000 sites called with [dict=True],
    whose calls all return results that the retention filter can test, every
    chunk is called and the result is one list: the retained chunk results in
    chunk order, a list contributing its elements in their order and any
    other result contributing itself as one element. *)
Theorem list_mode_flattens_retained :
  forall (pandas : Pandas) (W : Type) (sites : list Site) (f : Invoker W) (w : W),
    1000 < length sites ->
    let r := run_batch pandas sites f (PyBool true) w in
    forallb call_ok (calls_of r) = true ->
    map call_items (calls_of r) = chunks_of sites /\
    result_of r = Returned (PyList (concat (map splice (retained (calls_of r))))).
Proof.
  intros pandas W sites f w Hlen r Hok.
  destruct (run_batch_all_ok pandas sites f (PyBool true) w Hlen Hok) as [Hitems Hres].
  fold r in Hitems, Hres.
  split; [exact Hitems|].
  now rewrite Hres, merge_chunks_list_mode.
Qed.

(** Chunk results [[a]], [[b, c]], [[d]] with [dict=True] give [[a, b, c, d]]. *)
Lemma list_mode_flattens_retained_witness :
  1000 < length Cases.sites_2500 /\
  result_of (run_batch Samples.reference_pandas Cases.sites_2500
               (Samples.scripted Cases.three_lists) (PyBool true) 0)
  = Returned (PyList [PyStr "a"; PyStr "b"; PyStr "c"; PyStr "d"]).
Proof.
  assert (1000 < length Cases.sites_2500) as H
    by (apply Nat.ltb_lt; vm_compute; reflexivity).
  split; [exact H|].
  assert (forallb call_ok
            (calls_of (run_batch Samples.reference_pandas Cases.sites_2500
                         (Samples.scripted Cases.three_lists) (PyBool true) 0)) = true)
    as Hok by (vm_compute; reflexivity).
  rewrite (proj2 (list_mode_flattens_retained Samples.reference_pandas nat
                    Cases.sites_2500 (Samples.scripted Cases.three_lists) 0 H Hok)).
  vm_compute. reflexivity.
Defined.

(** ** Mappings *)

Lemma key_eqb_true (a b : PyKey) :
  key_eqb a b = true <-> key_norm a = key_norm b.
Proof.
  unfold key_eqb.
  destruct a as [|[|]|x|x|x], b as [|[|]|y|y|y]; cbn [key_norm key_eqb_raw];
    rewrite ?Z.eqb_eq, ?String.eqb_eq;
    split; intros H; congruence.
Qed.

Lemma key_eqb_trans_l (a b c : PyKey) :
  key_eqb a b = true -> key_eqb a c = key_eqb b c.
Proof.
  intros Hab. apply key_eqb_true in Hab.
  destruct (key_eqb a c) eqn:Eac, (key_eqb b c) eqn:Ebc; try reflexivity.
  - apply key_eqb_true in Eac.
    assert (key_eqb b c = true) as E by (apply key_eqb_true; congruence).
    congruence.
  - apply key_eqb_true in Ebc.
    assert (key_eqb a c = true) as E by (apply key_eqb_true; congruence).
    congruence.
Qed.

(** Reading a key after [d[k] = v]. *)
Lemma dict_getitem_setitem (d : list (PyKey * PyVal)) (k k' : PyKey) (v : PyVal) :
  dict_getitem (dict_setitem d k v) k'
  = if key_eqb k k' then Some v else dict_getitem d k'.
Proof.
  induction d as [|[k1 v1] rest IH]; cbn [dict_setitem dict_getitem].
  - reflexivity.
  - destruct (key_eqb k1 k) eqn:E1; cbn [dict_getitem].
    + rewrite (key_eqb_trans_l k1 k k' E1).
      now destruct (key_eqb k k').
    + rewrite IH.
      destruct (key_eqb k k') eqn:E2; [|reflexivity].
      destruct (key_eqb k1 k') eqn:E3; [|reflexivity].
      apply key_eqb_true in E2, E3.
      assert (key_eqb k1 k = true) as E by (apply key_eqb_true; congruence).
      congruence.
Qed.

Lemma binding_snoc (es : list (PyKey * PyVal)) (kv : PyKey * PyVal) (k : PyKey) :
  binding (es ++ [kv]) k = if key_eqb (fst kv) k then Some (snd kv) else binding es k.
Proof.
  unfold binding. now rewrite fold_left_app.
Qed.

(** Reading a key after [merged.update(entries)]: the entries win. *)
Lemma dict_getitem_update (merged es : list (PyKey * PyVal)) (k : PyKey) :
  dict_getitem (update_entries merged es) k
  = match binding es k with
    | Some v => Some v
    | None => dict_getitem merged k
    end.
Proof.
  induction es as [|kv es IH] using rev_ind.
  - reflexivity.
  - rewrite binding_snoc. unfold update_entries in *.
    rewrite fold_left_app. cbn [fold_left].
    rewrite dict_getitem_setitem, IH.
    now destruct (key_eqb (fst kv) k).
Qed.

(** Updating with mappings never raises. *)
Lemma update_all_mappings (pandas : Pandas) (ds : list (list (PyKey * PyVal))) :
  forall merged,
    update_all pandas merged (map PyDict ds)
    = Returned (fold_left update_entries ds merged).
Proof.
  induction ds as [|es ds IH]; intros merged; cbn [map update_all fold_left].
  - reflexivity.
  - cbn [dict_update obind]. apply IH.
Qed.

(** Mappings that do not bind [k] leave it as it is. *)
Lemma dict_getitem_untouched (post : list (list (PyKey * PyVal))) (k : PyKey) :
  Forall (fun es => binding es k = None) post ->
  forall merged,
    dict_getitem (fold_left update_entries post merged) k = dict_getitem merged k.
Proof.
  induction 1 as [|es post Hes _ IH]; intros merged; cbn [fold_left].
  - reflexivity.
  - rewrite IH, dict_getitem_update. now rewrite Hes.
Qed.

(** The last mapping that binds a key decides its value. *)
Lemma last_write_wins (pre post : list (list (PyKey * PyVal)))
  (es : list (PyKey * PyVal)) (k : PyKey) (v : PyVal) (merged : list (PyKey * PyVal)) :
  binding es k = Some v ->
  Forall (fun es' => binding es' k = None) post ->
  dict_getitem (fold_left update_entries (pre ++ es :: post) merged) k = Some v.
Proof.
  intros Hes Hpost.
  rewrite fold_left_app. cbn [fold_left].
  rewrite (dict_getitem_untouched post k Hpost), dict_getitem_update.
  now rewrite Hes.
Qed.

(** C5. In a batch over more than 1000 sites called with a flag that is
    not [True], whose calls all return testable results and whose retained
    results are mappings, every chunk is called and the result is the mapping
    obtained from the empty one by updating it with the retained mappings in
    chunk order; the value of a key is the one given by the last retained
    mapping that has the key. *)
Theorem mapping_mode_last_write_wins :
  forall (pandas : Pandas) (W : Type) (sites : list Site) (f : Invoker W)
         (d : PyVal) (w : W) (first : list (PyKey * PyVal))
         (others : list (list (PyKey * PyVal))),
    1000 < length sites ->
    is_True d = false ->
    let r := run_batch pandas sites f d w in
    forallb call_ok (calls_of r) = true ->
    retained (calls_of r) = map PyDict (first :: others) ->
    map call_items (calls_of r) = chunks_of sites /\
    result_of r = Returned (PyDict (fold_left update_entries (first :: others) [])) /\
    (forall pre es post k v,
       first :: others = pre ++ es :: post ->
       binding es k = Some v ->
       Forall (fun es' => binding es' k = None) post ->
       dict_getitem (fold_left update_entries (first :: others) []) k = Some v).
Proof.
  intros pandas W sites f d w first others Hlen Hd r Hok Hret.
  destruct (run_batch_all_ok pandas sites f d w Hlen Hok) as [Hitems Hres].
  fold r in Hitems, Hres.
  split; [exact Hitems|]. split.
  - rewrite Hres, Hret. cbn [map]. unfold merge_chunks. rewrite Hd.
    change (PyDict first :: map PyDict others) with (map PyDict (first :: others)).
    now rewrite update_all_mappings.
  - intros pre es post k v Hsplit Hes Hpost.
    rewrite Hsplit. now apply last_write_wins.
Qed.

(** Chunk A returns [{"x": 1}], chunk B returns [{"x": 2}]: the result is
    [{"x": 2}]. *)
Lemma mapping_mode_last_write_wins_witness :
  1000 < length Cases.sites_1001 /\
  result_of (run_batch Samples.reference_pandas Cases.sites_1001
               (Samples.scripted Cases.two_mappings) (PyBool false) 0)
  = Returned (PyDict [(KStr "x", PyInt 2)]).
Proof.
  assert (1000 < length Cases.sites_1001) as H
    by (apply Nat.ltb_lt; vm_compute; reflexivity).
  split; [exact H|].
  assert (forallb call_ok
            (calls_of (run_batch Samples.reference_pandas Cases.sites_1001
                         (Samples.scripted Cases.two_mappings) (PyBool false) 0)) = true)
    as Hok by (vm_compute; reflexivity).
  assert (retained
            (calls_of (run_batch Samples.reference_pandas Cases.sites_1001
                         (Samples.scripted Cases.two_mappings) (PyBool false) 0))
          = map PyDict [[(KStr "x", PyInt 1)]; [(KStr "x", PyInt 2)]])
    as Hret by (vm_compute; reflexivity).
  rewrite (proj1 (proj2 (mapping_mode_last_write_wins Samples.reference_pandas nat
                    Cases.sites_1001 (Samples.scripted Cases.two_mappings)
                    (PyBool false) 0 _ _ H eq_refl Hok Hret))).
  vm_compute. reflexivity.
Defined.

(** A retained result that is not a mapping, after a first one that is,
    makes [merged.update] raise. *)
Example mapping_then_text_raises :
  result_of (run_batch Samples.reference_pandas Cases.sites_1001
               (Samples.scripted Cases.mapping_then_text) PyNone 0)
  = Raised (ValueError "dictionary update sequence element #0 has length 1; 2 is required").
Proof. vm_compute. reflexivity. Qed.

(** ** Batches whose chunks all come back empty *)

Lemma falsy_calls_retain_nothing (calls : list Call) :
  forallb call_falsy calls = true ->
  retained calls = [] /\ forallb call_ok calls = true.
Proof.
  induction calls as [|c calls IH]; cbn [forallb]; intros H.
  - split; reflexivity.
  - apply andb_true_iff in H. destruct H as [Hc Hrest].
    destruct (IH Hrest) as [IH1 IH2].
    unfold retained in *. cbn [flat_map forallb]. rewrite IH1, IH2.
    unfold call_falsy, falsy in Hc. unfold kept, call_ok, abort_of.
    destruct (call_outcome c) as [v|e]; [|discriminate].
    destruct (py_bool v) as [[|]|e]; try discriminate.
    split; reflexivity.
Qed.

(** X20. In a batch over more than 1000 sites whose calls all return a
    result that is false as a truth value ([None], an empty list, an empty
    mapping, [0], the empty text), every chunk is called, nothing is raised,
    and the result is the empty list when the flag is [True] and the empty
    frame [pd.DataFrame()], which has no rows, when the flag is [False] or
    [None].  A table, empty or not, is not such a result: see
    [empty_tables_end_batch]. *)
Theorem all_empty_batch :
  forall (pandas : Pandas) (W : Type) (sites : list Site) (f : Invoker W)
         (d : PyVal) (w : W),
    1000 < length sites ->
    let r := run_batch pandas sites f d w in
    forallb call_falsy (calls_of r) = true ->
    map call_items (calls_of r) = chunks_of sites /\
    (d = PyBool true -> result_of r = Returned (PyList [])) /\
    (d = PyBool false \/ d = PyNone ->
       result_of r = Returned (PyDataFrame empty_frame) /\
       row_count (PyDataFrame empty_frame) = Some 0).
Proof.
  intros pandas W sites f d w Hlen r Hfalsy.
  destruct (falsy_calls_retain_nothing _ Hfalsy) as [Hret Hok].
  destruct (run_batch_all_ok pandas sites f d w Hlen Hok) as [Hitems Hres].
  fold r in Hitems, Hres. rewrite Hret in Hres.
  split; [exact Hitems|]. split.
  - intros ->. exact Hres.
  - intros [-> | ->]; (split; [exact Hres | reflexivity]).
Qed.

(** Chunk results [[]], [{}] and [None] with the default flag give the
    empty frame. *)
Lemma all_empty_batch_witness :
  1000 < length Cases.sites_2500 /\
  result_of (run_batch Samples.reference_pandas Cases.sites_2500
               (Samples.scripted Cases.three_empties) PyNone 0)
  = Returned (PyDataFrame empty_frame).
Proof.
  assert (1000 < length Cases.sites_2500) as H
    by (apply Nat.ltb_lt; vm_compute; reflexivity).
  split; [exact H|].
  assert (forallb call_falsy
            (calls_of (run_batch Samples.reference_pandas Cases.sites_2500
                         (Samples.scripted Cases.three_empties) PyNone 0)) = true)
    as Hf by (vm_compute; reflexivity).
  destruct (all_empty_batch Samples.reference_pandas nat Cases.sites_2500
              (Samples.scripted Cases.three_empties) PyNone 0 H Hf)
    as (_ & _ & Hnone).
  exact (proj1 (Hnone (or_intror eq_refl))).
Defined.

(** C6, as the code behaves. An empty table is not dropped: in a batch
    over more than 1000 sites in which every call that is made returns a table
    without rows, the first call is the only one, the truth test of the
    retention filter raises [ValueError] on its result, and the batch raises
    it instead of returning an empty table or an empty list, whatever the
    flag. *)
Theorem empty_tables_end_batch :
  forall (pandas : Pandas) (W : Type) (sites : list Site) (f : Invoker W)
         (d : PyVal) (w : W),
    1000 < length sites ->
    let r := run_batch pandas sites f d w in
    Forall (fun c => exists df,
              call_outcome c = Returned (PyDataFrame df) /\ rows df = [])
           (calls_of r) ->
    result_of r = Raised ambiguous_truth /\
    length (calls_of r) = 1 /\
    map call_items (calls_of r) = [firstn 1000 sites].
Proof.
  intros pandas W sites f d w Hlen r Hempty.
  assert (forall c, In c (calls_of r) ->
                    abort_of c = Some ambiguous_truth /\ call_ok c = false) as Hbad.
  { intros c Hc. rewrite Forall_forall in Hempty.
    destruct (Hempty c Hc) as (df & Hout & _).
    unfold call_ok, abort_of. rewrite Hout. split; reflexivity. }
  destruct (run_batch_multi pandas sites f d w Hlen)
    as (_ & Hitems & _ & [(Hok & Hn & _) | (pre & last & e & Hc & Hpre & Hlast & Hres)]);
    fold r in Hitems.
  - fold r in Hok, Hn. exfalso.
    assert (0 < length (chunks_of sites)) as Hpos
      by (rewrite chunks_of_length; apply Nat.div_str_pos; lia).
    rewrite <- Hn in Hpos.
    destruct (calls_of r) as [|c calls]; [cbn [length] in Hpos; lia|].
    cbn [forallb] in Hok. apply andb_true_iff in Hok.
    destruct (Hbad c (or_introl eq_refl)) as [_ Hc]. destruct Hok. congruence.
  - fold r in Hc, Hres.
    assert (pre = []) as ->.
    { destruct pre as [|c pre]; [reflexivity|]. exfalso.
      cbn [forallb] in Hpre. apply andb_true_iff in Hpre.
      destruct (Hbad c) as [_ Hcb]; [rewrite Hc; now left|].
      destruct Hpre. congruence. }
    cbn [app] in Hc.
    destruct (Hbad last) as [Hab _]; [rewrite Hc; now left|].
    split; [rewrite Hres; congruence|]. split; [now rewrite Hc|].
    rewrite Hitems, Hc. cbn [length firstn].
    destruct (chunks_of sites) as [|chunk chunks] eqn:Echunks.
    + exfalso.
      assert (0 < length (chunks_of sites)) as Hpos
        by (rewrite chunks_of_length; apply Nat.div_str_pos; lia).
      rewrite Echunks in Hpos. cbn in Hpos. lia.
    + f_equal.
      assert (nth_error (chunks_of sites) 0 = Some (slice sites (0 * 1000) (0 * 1000 + 1000)))
        as H0 by (apply chunks_of_nth; rewrite Echunks; cbn; lia).
      rewrite Echunks in H0. cbn [nth_error] in H0. injection H0 as ->.
      reflexivity.
Qed.

(** Three chunks that each come back as a table with a header and no row,
    under the default flag. *)
Lemma empty_tables_end_batch_witness :
  1000 < length Cases.sites_2500 /\
  result_of (run_batch Samples.reference_pandas Cases.sites_2500
               (Samples.scripted MoreCases.three_empty_tables) PyNone 0)
  = Raised ambiguous_truth /\
  length (calls_of (run_batch Samples.reference_pandas Cases.sites_2500
                      (Samples.scripted MoreCases.three_empty_tables) PyNone 0)) = 1.
Proof.
  assert (1000 < length Cases.sites_2500) as H
    by (apply Nat.ltb_lt; vm_compute; reflexivity).
  split; [exact H|].
  assert (calls_of (run_batch Samples.reference_pandas Cases.sites_2500
                      (Samples.scripted MoreCases.three_empty_tables) PyNone 0)
          = [mkCall (slice Cases.sites_2500 0 1000) PyNone
               (Returned (PyDataFrame (Samples.frame_of_rows 0 0)))])
    as Hcalls by (vm_compute; reflexivity).
  destruct (empty_tables_end_batch Samples.reference_pandas nat Cases.sites_2500
              (Samples.scripted MoreCases.three_empty_tables) PyNone 0 H)
    as (Hres & Hn & _).
  - rewrite Hcalls. constructor; [|constructor].
    exists (Samples.frame_of_rows 0 0). split; reflexivity.
  - split; [exact Hres | exact Hn].
Defined.

(** ** Results of an unknown shape *)

(** C7. When the flag is not [True] and the first retained chunk result
    is neither a table nor a mapping, the merge step does not raise and
    returns the list of the retained chunk results as it is; so does a batch
    over more than 1000 sites whose calls all return testable results. *)
Theorem unknown_shape_returns_raw_list :
  forall (pandas : Pandas) (W : Type) (sites : list Site) (f : Invoker W)
         (d : PyVal) (w : W) (first : PyVal) (rest : list PyVal),
    is_True d = false ->
    is_frame first = false ->
    is_dict first = false ->
    merge_chunks pandas (first :: rest) d = Returned (PyList (first :: rest)) /\
    (1000 < length sites ->
     let r := run_batch pandas sites f d w in
     forallb call_ok (calls_of r) = true ->
     retained (calls_of r) = first :: rest ->
     result_of r = Returned (PyList (first :: rest))).
Proof.
  intros pandas W sites f d w first rest Hd Hframe Hdict.
  assert (merge_chunks pandas (first :: rest) d = Returned (PyList (first :: rest))) as Hm.
  { unfold merge_chunks. rewrite Hd.
    destruct first; try reflexivity; discriminate. }
  split; [exact Hm|].
  intros Hlen r Hok Hret.
  destruct (run_batch_all_ok pandas sites f d w Hlen Hok) as [_ Hres].
  fold r in Hres. now rewrite Hres, Hret.
Qed.

(** A text, a list and a number with the default flag come back as the
    list of the three. *)
Lemma unknown_shape_returns_raw_list_witness :
  1000 < length Cases.sites_2500 /\
  result_of (run_batch Samples.reference_pandas Cases.sites_2500
               (Samples.scripted Cases.odd_shapes) PyNone 0)
  = Returned (PyList [PyStr "busy"; PyList [PyInt 1]; PyInt 7]).
Proof.
  assert (1000 < length Cases.sites_2500) as H
    by (apply Nat.ltb_lt; vm_compute; reflexivity).
  split; [exact H|].
  refine (proj2 (unknown_shape_returns_raw_list Samples.reference_pandas nat
                   Cases.sites_2500 (Samples.scripted Cases.odd_shapes) PyNone 0
                   (PyStr "busy") [PyList [PyInt 1]; PyInt 7]
                   eq_refl eq_refl eq_refl) H _ _);
    vm_compute; reflexivity.
Defined.

(** ** Failing calls *)

(** C8. In a batch over more than 1000 sites, when the call on chunk [k]
    raises, the batch raises the same exception, the calls made are exactly
    those on chunks [0] to [k], one each, and no later chunk is called. *)
Theorem failing_chunk_aborts_batch :
  forall (pandas : Pandas) (W : Type) (sites : list Site) (f : Invoker W)
         (d : PyVal) (w : W) (k : nat) (c : Call) (e : PyExn),
    1000 < length sites ->
    let r := run_batch pandas sites f d w in
    nth_error (calls_of r) k = Some c ->
    call_outcome c = Raised e ->
    result_of r = Raised e /\
    fst (__get_data pandas sites f d w) = Raised e /\
    length (calls_of r) = S k /\
    map call_items (calls_of r) = firstn (S k) (chunks_of sites) /\
    replays f w (calls_of r) (world_of r).
Proof.
  intros pandas W sites f d w k c e Hlen r Hnth Hraised.
  destruct (failing_call_ends_batch pandas W sites f d w Hlen k c e Hnth) as [Hn Hres].
  { unfold abort_of. now rewrite Hraised. }
  fold r in Hn, Hres.
  destruct (run_batch_multi pandas sites f d w Hlen) as (Hrep & Hitems & _).
  fold r in Hrep, Hitems.
  split; [exact Hres|]. split.
  - rewrite <- (proj1 (run_batch_erase pandas sites f d w)). exact Hres.
  - split; [exact Hn|]. split; [|exact Hrep]. now rewrite <- Hn.
Qed.

(** The second of three chunks answers 503: the batch raises it after two
    calls. *)
Lemma failing_chunk_aborts_batch_witness :
  1000 < length Cases.sites_2500 /\
  result_of (run_batch Samples.reference_pandas Cases.sites_2500
               (Samples.scripted Cases.second_fails) (PyBool true) 0)
  = Raised (HTTPError 503) /\
  length (calls_of (run_batch Samples.reference_pandas Cases.sites_2500
                      (Samples.scripted Cases.second_fails) (PyBool true) 0)) = 2.
Proof.
  assert (1000 < length Cases.sites_2500) as H
    by (apply Nat.ltb_lt; vm_compute; reflexivity).
  split; [exact H|].
  destruct (failing_chunk_aborts_batch Samples.reference_pandas nat Cases.sites_2500
              (Samples.scripted Cases.second_fails) (PyBool true) 0 1
              (mkCall (slice Cases.sites_2500 1000 2000) (PyBool true)
                 (Raised (HTTPError 503)))
              (HTTPError 503) H)
    as (Hres & _ & Hn & _).
  - vm_compute. reflexivity.
  - reflexivity.
  - split; [exact Hres | exact Hn].
Defined.

(** ** The sentinel is data *)

Lemma retained_filter (calls : list Call) :
  retained calls = filter truthy (returned_values calls).
Proof.
  unfold retained, returned_values.
  induction calls as [|c calls IH]; cbn [flat_map]; [reflexivity|].
  rewrite filter_app, IH. f_equal.
  unfold kept, truthy. destruct (call_outcome c) as [v|e]; [|reflexivity].
  cbn [filter]. now destruct (py_bool v) as [[|]|e].
Qed.

Lemma returned_value_testable (calls : list Call) (v : PyVal) :
  forallb call_ok calls = true ->
  In v (returned_values calls) ->
  truthy v = true \/ falsy v = true.
Proof.
  intros Hok Hin. unfold returned_values in Hin.
  apply in_flat_map in Hin. destruct Hin as (c & Hc & Hv).
  rewrite forallb_forall in Hok. specialize (Hok c Hc).
  unfold call_ok, abort_of in Hok.
  destruct (call_outcome c) as [v'|e]; [|contradiction].
  destruct Hv as [<-|[]].
  unfold truthy, falsy. destruct (py_bool v') as [[|]|e]; auto; discriminate.
Qed.

(** ** Empty bodies *)

Section EmptyBodies.

Import Endpoints.

Local Open Scope string_scope.

Context {W : Type}.
Variable cfg : Config.
Variable codec : Codec.
Variable requests : Request -> M W Response.
Variable w w' : W.

(** The six endpoints that take an identifier answer an empty body with
    the sentinel keyed by that identifier. *)
Lemma identifier_endpoints_sentinel (id : string) (d : PyVal) :
  (forall req, requests req w = (Returned (mkResponse 200 EmptyString), w')) ->
  get_info cfg codec requests id d w
  = (Returned (sentinel (KStr id) "No info found for the given ID."), w') /\
  get_msa cfg codec requests id d w
  = (Returned (sentinel (KStr id) "No msa found for the given ID."), w') /\
  get_substrates cfg codec requests id d w
  = (Returned (sentinel (KStr id) "No substrate found for the given ID."), w') /\
  get_proteoforms cfg codec requests id d w
  = (Returned (sentinel (KStr id) "No proteoforms found for the given ID."), w') /\
  get_ptm_dependent_ppi cfg codec requests id d w
  = (Returned (sentinel (KStr id) "No ptmppi found for the given ID."), w') /\
  get_ppi_for_proteoforms cfg codec requests id d w
  = (Returned (sentinel (KStr id) "No proteoformsppi found for the given ID."), w').
Proof.
  intros Hreq.
  unfold get_info, get_msa, get_substrates, get_proteoforms,
    get_ptm_dependent_ppi, get_ppi_for_proteoforms, bind.
  rewrite !Hreq. repeat split; reflexivity.
Qed.

(** Only three of them treat the body [[]] like the empty one. *)
Lemma empty_list_marker_endpoints (id : string) (d : PyVal) :
  (forall req, requests req w = (Returned (mkResponse 200 "[]"), w')) ->
  get_proteoforms cfg codec requests id d w
  = (Returned (sentinel (KStr id) "No proteoforms found for the given ID."), w') /\
  get_ptm_dependent_ppi cfg codec requests id d w
  = (Returned (sentinel (KStr id) "No ptmppi found for the given ID."), w') /\
  get_ppi_for_proteoforms cfg codec requests id d w
  = (Returned (sentinel (KStr id) "No proteoformsppi found for the given ID."), w') /\
  get_info cfg codec requests id d w = (json_loads codec "[]", w') /\
  get_msa cfg codec requests id d w = (json_loads codec "[]", w') /\
  get_substrates cfg codec requests id d w
  = ((if is_True d then json_loads codec "[]" else read_csv codec "[]"), w').
Proof.
  intros Hreq.
  unfold get_info, get_msa, get_substrates, get_proteoforms,
    get_ptm_dependent_ppi, get_ppi_for_proteoforms, bind.
  rewrite !Hreq. cbn [status_code text]. unfold lift, _to_dataframe_from_json.
  repeat split; try reflexivity; cbn; now destruct (is_True d).
Qed.

End EmptyBodies.

(** C9, as the code behaves. On status 200 with an empty body the two
    list endpoints and [search] do return a one-entry mapping with their
    message, but its key is the builtin function [id], whatever was
    requested: the name [id] is not bound in these functions. *)
Theorem list_endpoints_sentinel_key_is_builtin :
  forall (cfg : Endpoints.Config) (codec : Endpoints.Codec) (items : list Site)
         (search_term term_type role : string)
         (ptm_list organism_list : option (list string)) (d : PyVal),
    Endpoints.get_ptm_enzymes_from_list cfg codec
      (Samples.constant_transport 200 EmptyString) items d tt
    = (Returned (sentinel (KBuiltin "id") "No ptm enzymes found for the given ID."), tt) /\
    Endpoints.get_ptm_ppi_from_list cfg codec
      (Samples.constant_transport 200 EmptyString) items d tt
    = (Returned (sentinel (KBuiltin "id") "No ptmppi found for the given ID."), tt) /\
    Endpoints.search cfg codec (Samples.constant_transport 200 EmptyString)
      search_term term_type role ptm_list organism_list d tt
    = (Returned (sentinel (KBuiltin "id") "No data found for the given ID."), tt).
Proof.
  intros. repeat split; reflexivity.
Qed.

(** The body [[]] is decoded, not replaced by the sentinel, by [get_info]
    and by [search]. *)
Example empty_list_marker_is_decoded :
  Endpoints.get_info Endpoints.default_config Samples.sample_codec
    (Samples.constant_transport 200 "[]") "Q15796" PyNone tt
  = (Returned (PyList []), tt) /\
  Endpoints.search Endpoints.default_config Samples.sample_codec
    (Samples.constant_transport 200 "[]") "SMAD2" "gene" "enzyme" None None (PyBool true) tt
  = (Returned (PyList []), tt).
Proof. split; vm_compute; reflexivity. Qed.

(** A status that is neither 200 nor an error, such as 204, ends the
    function without a [return]: the result is [None], not the sentinel. *)
Example no_content_returns_None :
  Endpoints.get_ptm_enzymes_from_list Endpoints.default_config Samples.sample_codec
    (Samples.constant_transport 204 EmptyString) [] PyNone tt
  = (Returned PyNone, tt) /\
  Endpoints.get_info Endpoints.default_config Samples.sample_codec
    (Samples.constant_transport 404 EmptyString) "Q15796" PyNone tt
  = (Raised (HTTPError 404), tt).
Proof. split; vm_compute; reflexivity. Qed.

(** A batch of the list endpoint itself: with [dict=True] and empty bodies
    both chunks come back as the sentinel, which is kept twice. *)
Example batch_of_sentinels :
  fst (__get_data Samples.reference_pandas Cases.sites_1001
         (Endpoints.get_ptm_enzymes_from_list Endpoints.default_config
            Samples.sample_codec (Samples.constant_transport 200 EmptyString))
         (PyBool true) tt)
  = Returned (PyList [sentinel (KBuiltin "id") "No ptm enzymes found for the given ID.";
                      sentinel (KBuiltin "id") "No ptm enzymes found for the given ID."]).
Proof. vm_compute. reflexivity. Qed.

(** With the default flag the same batch folds the sentinels into one
    mapping, and a batch whose bodies are tables stops at the first chunk. *)
Example batch_of_sentinels_default_flag :
  fst (__get_data Samples.reference_pandas Cases.sites_1001
         (Endpoints.get_ptm_enzymes_from_list Endpoints.default_config
            Samples.sample_codec (Samples.constant_transport 200 EmptyString))
         PyNone tt)
  = Returned (sentinel (KBuiltin "id") "No ptm enzymes found for the given ID.") /\
  fst (__get_data Samples.reference_pandas Cases.sites_1001
         (Endpoints.get_ptm_enzymes_from_list Endpoints.default_config
            Samples.sample_codec (Samples.constant_transport 200 "site"))
         PyNone tt)
  = Raised ambiguous_truth.
Proof. split; vm_compute; reflexivity. Qed.

(** * Further properties of [__get_data] *)

(** ** The merge never reaches pandas *)

Section NoPandas.

Context {W : Type}.
Variable sites : list Site.
Variable f : Invoker W.
Variable d : PyVal.

Lemma for_chunks_no_frames (starts : list nat) :
  forall acc w all w',
    for_chunks sites f d starts acc w = (Returned all, w') ->
    Forall (fun v => is_frame v = false) acc ->
    Forall (fun v => is_frame v = false) all.
Proof.
  induction starts as [|i rest IH]; intros acc w all w' H Hacc.
  - cbn [for_chunks] in H. unfold ret in H. now inversion H; subst.
  - cbn [for_chunks] in H. unfold bind, lift in H.
    destruct (f (slice sites i (i + 1000)) d w) as [[v|e] w1]; [|discriminate].
    destruct (py_bool v) as [b|e] eqn:Eb; [|discriminate].
    apply IH in H; [exact H|].
    destruct b; [|exact Hacc].
    apply Forall_app. split; [exact Hacc|].
    constructor; [|constructor]. now destruct v.
Qed.

Lemma update_all_pandas_irrelevant (p1 p2 : Pandas) (all_chunks : list PyVal) :
  Forall (fun v => is_frame v = false) all_chunks ->
  forall merged, update_all p1 merged all_chunks = update_all p2 merged all_chunks.
Proof.
  induction 1 as [|v rest Hv _ IH]; intros merged; cbn [update_all].
  - reflexivity.
  - assert (dict_update p1 merged v = dict_update p2 merged v) as ->
      by (destruct v; try reflexivity; discriminate).
    destruct (dict_update p2 merged v); cbn [obind]; [apply IH | reflexivity].
Qed.

Lemma merge_chunks_pandas_irrelevant (p1 p2 : Pandas) (all_chunks : list PyVal) :
  Forall (fun v => is_frame v = false) all_chunks ->
  merge_chunks p1 all_chunks d = merge_chunks p2 all_chunks d.
Proof.
  intros Hall. unfold merge_chunks.
  destruct all_chunks as [|first rest]; [reflexivity|].
  destruct (is_True d); [reflexivity|].
  pose proof (Forall_inv Hall) as Hfirst.
  destruct first; try reflexivity; try discriminate.
  now rewrite (update_all_pandas_irrelevant p1 p2 _ Hall).
Qed.

End NoPandas.

(** X1. Whatever the sites, the endpoint function, the flag and the world,
    [__get_data] computes the same outcome and world for any two behaviours of
    pandas: neither [pd.concat] nor the view of a frame as a mapping is ever
    reached, because a table does not pass the truth test that fills
    [all_chunks]. *)
Theorem batch_never_reaches_pandas :
  forall (p1 p2 : Pandas) (W : Type) (sites : list Site) (f : Invoker W)
         (d : PyVal) (w : W),
    __get_data p1 sites f d w = __get_data p2 sites f d w.
Proof.
  intros p1 p2 W sites f d w. unfold __get_data.
  destruct (length sites <=? 1000); [reflexivity|].
  unfold bind.
  destruct (for_chunks sites f d (py_range 0 (length sites) 1000) [] w)
    as [[all|e] w'] eqn:E; [|reflexivity].
  unfold lift. f_equal.
  apply merge_chunks_pandas_irrelevant.
  exact (for_chunks_no_frames sites f d _ _ _ _ _ E (Forall_nil _)).
Qed.

(** ** Flags other than [True], [False] and [None] *)

Lemma retained_truthy (calls : list Call) (v : PyVal) :
  In v (retained calls) -> truthy v = true.
Proof.
  rewrite retained_filter. intros Hin. now apply filter_In in Hin.
Qed.

(** X2. A flag that is true as a truth value without being [True] itself
    (a number, a text) is treated in two ways by one batch over more than 1000
    sites: when nothing is retained the result is the empty list, as in list
    mode, but retained lists are not flattened: they come back nested in the
    list of retained results. *)
Theorem truthy_flag_is_not_list_mode :
  forall (pandas : Pandas) (W : Type) (sites : list Site) (f : Invoker W)
         (d : PyVal) (w : W),
    1000 < length sites ->
    truthy d = true ->
    is_True d = false ->
    let r := run_batch pandas sites f d w in
    (forallb call_falsy (calls_of r) = true -> result_of r = Returned (PyList [])) /\
    (forall items rest,
       forallb call_ok (calls_of r) = true ->
       retained (calls_of r) = PyList items :: rest ->
       result_of r = Returned (PyList (PyList items :: rest))).
Proof.
  intros pandas W sites f d w Hlen Htrue Hnot r. split.
  - intros Hfalsy.
    destruct (falsy_calls_retain_nothing _ Hfalsy) as [Hret Hok].
    destruct (run_batch_all_ok pandas sites f d w Hlen Hok) as [_ Hres].
    fold r in Hres. rewrite Hret in Hres. rewrite Hres.
    unfold merge_chunks. unfold truthy in Htrue.
    destruct (py_bool d) as [[|]|e]; try discriminate. reflexivity.
  - intros items rest Hok Hret.
    destruct (run_batch_all_ok pandas sites f d w Hlen Hok) as [_ Hres].
    fold r in Hres. rewrite Hres, Hret. unfold merge_chunks. now rewrite Hnot.
Qed.

(** The flag [1] with chunk results [[a]], [[b, c]], [[d]], and with three
    empty results. *)
Lemma truthy_flag_is_not_list_mode_witness :
  1000 < length Cases.sites_2500 /\
  result_of (run_batch Samples.reference_pandas Cases.sites_2500
               (Samples.scripted Cases.three_lists) (PyInt 1) 0)
  = Returned (PyList [PyList [PyStr "a"]; PyList [PyStr "b"; PyStr "c"];
                      PyList [PyStr "d"]]) /\
  result_of (run_batch Samples.reference_pandas Cases.sites_2500
               (Samples.scripted Cases.three_empties) (PyInt 1) 0)
  = Returned (PyList []).
Proof.
  assert (1000 < length Cases.sites_2500) as H
    by (apply Nat.ltb_lt; vm_compute; reflexivity).
  split; [exact H|].
  destruct (truthy_flag_is_not_list_mode Samples.reference_pandas nat
              Cases.sites_2500 (Samples.scripted Cases.three_lists) (PyInt 1) 0
              H eq_refl eq_refl) as [_ Hnested].
  destruct (truthy_flag_is_not_list_mode Samples.reference_pandas nat
              Cases.sites_2500 (Samples.scripted Cases.three_empties) (PyInt 1) 0
              H eq_refl eq_refl) as [Hempty _].
  split.
  - apply Hnested; vm_compute; reflexivity.
  - apply Hempty. vm_compute. reflexivity.
Defined.

(** X3. When nothing is retained in a batch over more than 1000 sites, it
    is the truth value of the flag that picks the result: every flag that is
    false as a truth value, such as [0], the empty text or an empty list,
    gives [pd.DataFrame()] as [False] and [None] do, and a flag that is itself
    a table makes the batch raise the exception of its truth test. *)
Theorem empty_batch_tests_the_flag :
  forall (pandas : Pandas) (W : Type) (sites : list Site) (f : Invoker W)
         (d : PyVal) (w : W),
    1000 < length sites ->
    let r := run_batch pandas sites f d w in
    forallb call_falsy (calls_of r) = true ->
    (falsy d = true -> result_of r = Returned (PyDataFrame empty_frame)) /\
    (is_frame d = true -> result_of r = Raised ambiguous_truth).
Proof.
  intros pandas W sites f d w Hlen r Hfalsy.
  destruct (falsy_calls_retain_nothing _ Hfalsy) as [Hret Hok].
  destruct (run_batch_all_ok pandas sites f d w Hlen Hok) as [_ Hres].
  fold r in Hres. rewrite Hret in Hres. rewrite Hres.
  unfold merge_chunks, falsy.
  split; intros Hd.
  - destruct (py_bool d) as [[|]|e]; try discriminate. reflexivity.
  - destruct d; try discriminate. reflexivity.
Qed.

(** Three empty results under the flag [0]. *)
Lemma empty_batch_tests_the_flag_witness :
  1000 < length Cases.sites_2500 /\
  result_of (run_batch Samples.reference_pandas Cases.sites_2500
               (Samples.scripted Cases.three_empties) (PyInt 0) 0)
  = Returned (PyDataFrame empty_frame).
Proof.
  assert (1000 < length Cases.sites_2500) as H
    by (apply Nat.ltb_lt; vm_compute; reflexivity).
  split; [exact H|].
  assert (forallb call_falsy
            (calls_of (run_batch Samples.reference_pandas Cases.sites_2500
                         (Samples.scripted Cases.three_empties) (PyInt 0) 0)) = true)
    as Hf by (vm_compute; reflexivity).
  exact (proj1 (empty_batch_tests_the_flag Samples.reference_pandas nat
                  Cases.sites_2500 (Samples.scripted Cases.three_empties)
                  (PyInt 0) 0 H Hf) eq_refl).
Defined.

(** ** Mappings mixed with other results *)

Lemma update_all_after_mappings (pandas : Pandas) (ds : list (list (PyKey * PyVal)))
  (tail : list PyVal) :
  forall merged,
    update_all pandas merged (map PyDict ds ++ tail)
    = update_all pandas (fold_left update_entries ds merged) tail.
Proof.
  induction ds as [|es ds IH]; intros merged; cbn [map app update_all fold_left].
  - reflexivity.
  - cbn [dict_update obind]. apply IH.
Qed.

Lemma nonempty_text_is_no_pair_sequence (merged : list (PyKey * PyVal)) (s : string) :
  s <> EmptyString ->
  update_pairs merged 0 (chars s)
  = Raised (ValueError "dictionary update sequence element #0 has length 1; 2 is required").
Proof.
  intros Hs. destruct s as [|c s]; [congruence|].
  reflexivity.
Qed.

Lemma truthy_text_nonempty (s : string) : truthy (PyStr s) = true -> s <> EmptyString.
Proof.
  intros H ->. discriminate.
Qed.

(** X4. The mapping merge is not safe against mixed shapes: in a batch over
    more than 1000 sites with a flag that is not [True], when the retained
    results start with mappings and go on with a text or a number, the batch
    raises what [dict.update] raises on it, [ValueError] for the text and
    [TypeError] for the number, whatever comes after. *)
Theorem mapping_merge_rejects_text_and_numbers :
  forall (pandas : Pandas) (W : Type) (sites : list Site) (f : Invoker W)
         (d : PyVal) (w : W) (first : list (PyKey * PyVal))
         (others : list (list (PyKey * PyVal))) (v : PyVal) (rest : list PyVal),
    1000 < length sites ->
    is_True d = false ->
    let r := run_batch pandas sites f d w in
    forallb call_ok (calls_of r) = true ->
    retained (calls_of r) = map PyDict (first :: others) ++ v :: rest ->
    (forall s, v = PyStr s ->
       result_of r
       = Raised (ValueError "dictionary update sequence element #0 has length 1; 2 is required")) /\
    (forall z, v = PyInt z ->
       result_of r = Raised (TypeError "'int' object is not iterable")).
Proof.
  intros pandas W sites f d w first others v rest Hlen Hd r Hok Hret.
  destruct (run_batch_all_ok pandas sites f d w Hlen Hok) as [_ Hres].
  fold r in Hres.
  assert (truthy v = true) as Hv.
  { apply (retained_truthy (calls_of r)). rewrite Hret.
    apply in_or_app. right. now left. }
  assert (result_of r
          = obind (obind (dict_update pandas (fold_left update_entries (first :: others) []) v)
                         (fun m => update_all pandas m rest))
                  (fun merged => Returned (PyDict merged))) as Hmerge.
  { rewrite Hres, Hret. cbn [map app]. unfold merge_chunks. rewrite Hd.
    change (PyDict first :: map PyDict others ++ v :: rest)
      with (map PyDict (first :: others) ++ v :: rest).
    now rewrite update_all_after_mappings. }
  split.
  - intros s ->. rewrite Hmerge. cbn [dict_update].
    now rewrite (nonempty_text_is_no_pair_sequence _ s (truthy_text_nonempty s Hv)).
  - intros z ->. rewrite Hmerge. reflexivity.
Qed.

(** A mapping, then the text [busy]. *)
Lemma mapping_merge_rejects_text_and_numbers_witness :
  1000 < length Cases.sites_1001 /\
  result_of (run_batch Samples.reference_pandas Cases.sites_1001
               (Samples.scripted Cases.mapping_then_text) PyNone 0)
  = Raised (ValueError "dictionary update sequence element #0 has length 1; 2 is required").
Proof.
  assert (1000 < length Cases.sites_1001) as H
    by (apply Nat.ltb_lt; vm_compute; reflexivity).
  split; [exact H|].
  refine (proj1 (mapping_merge_rejects_text_and_numbers Samples.reference_pandas nat
                   Cases.sites_1001 (Samples.scripted Cases.mapping_then_text) PyNone 0
                   [(KStr "x", PyInt 1)] [] (PyStr "busy") [] H eq_refl _ _) "busy"%string eq_refl);
    vm_compute; reflexivity.
Defined.

(** ** The keys of a merged mapping *)

Lemma dict_getitem_merged_none (ds : list (list (PyKey * PyVal))) (k : PyKey) :
  forall merged,
    dict_getitem (fold_left update_entries ds merged) k = None <->
    dict_getitem merged k = None /\ Forall (fun es => binding es k = None) ds.
Proof.
  induction ds as [|es ds IH]; intros merged; cbn [fold_left].
  - split; [intros H; split; [exact H | constructor] | intros [H _]; exact H].
  - rewrite IH, dict_getitem_update. split.
    + intros [Hm Hds]. destruct (binding es k) eqn:E; [discriminate|].
      split; [exact Hm|]. constructor; assumption.
    + intros [Hm Hall]. inversion Hall as [|? ? Hes Hds]; subst.
      rewrite Hes. split; assumption.
Qed.

(** X5. The mapping merge neither loses nor invents keys: in a batch over
    more than 1000 sites with a flag that is not [True] whose retained results
    are mappings, a key is absent from the result exactly when no retained
    mapping has it. *)
Theorem mapping_merge_keeps_every_key :
  forall (pandas : Pandas) (W : Type) (sites : list Site) (f : Invoker W)
         (d : PyVal) (w : W) (first : list (PyKey * PyVal))
         (others : list (list (PyKey * PyVal))),
    1000 < length sites ->
    is_True d = false ->
    let r := run_batch pandas sites f d w in
    forallb call_ok (calls_of r) = true ->
    retained (calls_of r) = map PyDict (first :: others) ->
    exists merged,
      result_of r = Returned (PyDict merged) /\
      forall k, dict_getitem merged k = None <->
                Forall (fun es => binding es k = None) (first :: others).
Proof.
  intros pandas W sites f d w first others Hlen Hd r Hok Hret.
  destruct (run_batch_all_ok pandas sites f d w Hlen Hok) as [_ Hres].
  fold r in Hres.
  exists (fold_left update_entries (first :: others) []). split.
  - rewrite Hres, Hret. cbn [map]. unfold merge_chunks. rewrite Hd.
    change (PyDict first :: map PyDict others) with (map PyDict (first :: others)).
    now rewrite update_all_mappings.
  - intros k. rewrite dict_getitem_merged_none. cbn [dict_getitem].
    split; [intros [_ H]; exact H | intros H; split; [reflexivity | exact H]].
Qed.

(** [{"x": 1}] and [{"x": 2}]: the result has the key [x]. *)
Lemma mapping_merge_keeps_every_key_witness :
  1000 < length Cases.sites_1001 /\
  exists merged,
    result_of (run_batch Samples.reference_pandas Cases.sites_1001
                 (Samples.scripted Cases.two_mappings) (PyBool false) 0)
    = Returned (PyDict merged) /\
    dict_getitem merged (KStr "x") <> None.
Proof.
  assert (1000 < length Cases.sites_1001) as H
    by (apply Nat.ltb_lt; vm_compute; reflexivity).
  split; [exact H|].
  assert (forallb call_ok
            (calls_of (run_batch Samples.reference_pandas Cases.sites_1001
                         (Samples.scripted Cases.two_mappings) (PyBool false) 0)) = true)
    as Hok by (vm_compute; reflexivity).
  assert (retained
            (calls_of (run_batch Samples.reference_pandas Cases.sites_1001
                         (Samples.scripted Cases.two_mappings) (PyBool false) 0))
          = map PyDict [[(KStr "x", PyInt 1)]; [(KStr "x", PyInt 2)]])
    as Hret by (vm_compute; reflexivity).
  destruct (mapping_merge_keeps_every_key Samples.reference_pandas nat
              Cases.sites_1001 (Samples.scripted Cases.two_mappings)
              (PyBool false) 0 _ _ H eq_refl Hok Hret) as (merged & Hres & Hkeys).
  exists merged. split; [exact Hres|].
  intros Hnone. apply Hkeys in Hnone.
  inversion Hnone as [|? ? Hx _]. vm_compute in Hx. discriminate Hx.
Defined.

(** * Further properties of the endpoint functions *)

Section EndpointAnswers.

Import Endpoints.

Local Open Scope string_scope.

Context {W : Type}.
Variable cfg : Config.
Variable codec : Codec.
Variable requests : Request -> M W Response.
Variable w w' : W.

Variable search_term term_type role : string.
Variable ptm_list organism_list : option (list string).
Variable id : string.
Variable items : list Site.
Variable d : PyVal.

Local Ltac run_endpoints H :=
  unfold search, get_info, get_msa, get_substrates, get_proteoforms,
    get_ptm_dependent_ppi, get_ppi_for_proteoforms,
    get_ptm_enzymes_from_list, get_ptm_ppi_from_list, bind;
  rewrite !H; cbn [status_code text].

(** X6. Every endpoint function fails fast: when the transport raises, or
    answers with a status from 400 to 599, the function raises that exception,
    respectively [HTTPError] with that status, whatever the body and the flag,
    and no decoder is consulted. *)
Theorem endpoints_fail_fast :
  forall (o : Outcome Response) (e : PyExn),
    (forall req, requests req w = (o, w')) ->
    failure_of o = Some e ->
    search cfg codec requests search_term term_type role ptm_list organism_list d w
    = (Raised e, w') /\
    get_info cfg codec requests id d w = (Raised e, w') /\
    get_msa cfg codec requests id d w = (Raised e, w') /\
    get_substrates cfg codec requests id d w = (Raised e, w') /\
    get_proteoforms cfg codec requests id d w = (Raised e, w') /\
    get_ptm_dependent_ppi cfg codec requests id d w = (Raised e, w') /\
    get_ppi_for_proteoforms cfg codec requests id d w = (Raised e, w') /\
    get_ptm_enzymes_from_list cfg codec requests items d w = (Raised e, w') /\
    get_ptm_ppi_from_list cfg codec requests items d w = (Raised e, w').
Proof.
  intros o e Hreq Hfail. destruct o as [result|e0]; cbn [failure_of] in Hfail.
  - destruct ((400 <=? status_code result) && (status_code result <? 600))%Z eqn:Eerr;
      [|discriminate].
    injection Hfail as <-.
    assert ((status_code result =? 200)%Z = false) as E200.
    { apply andb_true_iff in Eerr. destruct Eerr as [Hlo _].
      apply Z.leb_le in Hlo. apply Z.eqb_neq. lia. }
    run_endpoints Hreq. rewrite E200. unfold lift, raise_for_status. rewrite Eerr.
    repeat split; reflexivity.
  - injection Hfail as <-. run_endpoints Hreq. repeat split; reflexivity.
Qed.

(** X7. A status that is neither 200 nor from 400 to 599 (a 204, a 301
    that was not followed) makes every endpoint function end without a
    [return]: the result is [None], whatever the body and the flag. *)
Theorem other_status_returns_None :
  forall (s : Z) (body : string),
    s <> 200%Z ->
    ~ (400 <= s < 600)%Z ->
    (forall req, requests req w = (Returned (mkResponse s body), w')) ->
    search cfg codec requests search_term term_type role ptm_list organism_list d w
    = (Returned PyNone, w') /\
    get_info cfg codec requests id d w = (Returned PyNone, w') /\
    get_msa cfg codec requests id d w = (Returned PyNone, w') /\
    get_substrates cfg codec requests id d w = (Returned PyNone, w') /\
    get_proteoforms cfg codec requests id d w = (Returned PyNone, w') /\
    get_ptm_dependent_ppi cfg codec requests id d w = (Returned PyNone, w') /\
    get_ppi_for_proteoforms cfg codec requests id d w = (Returned PyNone, w') /\
    get_ptm_enzymes_from_list cfg codec requests items d w = (Returned PyNone, w') /\
    get_ptm_ppi_from_list cfg codec requests items d w = (Returned PyNone, w').
Proof.
  intros s body Hs Herr Hreq.
  assert ((s =? 200)%Z = false) as E200 by (now apply Z.eqb_neq).
  assert (((400 <=? s) && (s <? 600))%Z = false) as Eerr.
  { apply andb_false_iff.
    destruct (Z.leb_spec 400 s); [right; apply Z.ltb_ge; lia | now left]. }
  run_endpoints Hreq. rewrite E200. unfold lift, raise_for_status.
  cbn [status_code]. rewrite Eerr. repeat split; reflexivity.
Qed.

(** X8. On status 200 with a body that is neither empty nor [[]], the flag
    picks the decoder: [json.loads] when it is [True] and [pd.read_csv]
    otherwise, for [search], [get_substrates], [get_proteoforms],
    [get_ptm_dependent_ppi], [get_ppi_for_proteoforms] and the two list
    functions, whose result is the decoder's, a raised exception included;
    [get_info] and [get_msa] decode JSON whatever the flag. *)
Theorem flag_picks_the_decoder :
  forall (body : string),
    body <> EmptyString ->
    body <> "[]" ->
    (forall req, requests req w = (Returned (mkResponse 200 body), w')) ->
    let decoded := if is_True d then json_loads codec body else read_csv codec body in
    search cfg codec requests search_term term_type role ptm_list organism_list d w
    = (decoded, w') /\
    get_info cfg codec requests id d w = (json_loads codec body, w') /\
    get_msa cfg codec requests id d w = (json_loads codec body, w') /\
    get_substrates cfg codec requests id d w = (decoded, w') /\
    get_proteoforms cfg codec requests id d w = (decoded, w') /\
    get_ptm_dependent_ppi cfg codec requests id d w = (decoded, w') /\
    get_ppi_for_proteoforms cfg codec requests id d w = (decoded, w') /\
    get_ptm_enzymes_from_list cfg codec requests items d w = (decoded, w') /\
    get_ptm_ppi_from_list cfg codec requests items d w = (decoded, w').
Proof.
  intros body Hne Hnl Hreq decoded. subst decoded.
  apply String.eqb_neq in Hne, Hnl.
  run_endpoints Hreq. rewrite Z.eqb_refl, Hne, Hnl. cbn [orb].
  unfold lift, _to_dataframe_from_json.
  repeat split; now destruct (is_True d).
Qed.

(** X9. On status 200 with an empty body every endpoint function returns
    a one-entry mapping whose value is its own message, whatever the flag and
    without consulting a decoder; the key is the identifier for the six
    functions that take one.  The mapping is true as a truth value. *)
Theorem empty_body_gives_sentinel :
  (forall req, requests req w = (Returned (mkResponse 200 EmptyString), w')) ->
  (exists key,
     search cfg codec requests search_term term_type role ptm_list organism_list d w
     = (Returned (sentinel key "No data found for the given ID."), w')) /\
  get_info cfg codec requests id d w
  = (Returned (sentinel (KStr id) "No info found for the given ID."), w') /\
  get_msa cfg codec requests id d w
  = (Returned (sentinel (KStr id) "No msa found for the given ID."), w') /\
  get_substrates cfg codec requests id d w
  = (Returned (sentinel (KStr id) "No substrate found for the given ID."), w') /\
  get_proteoforms cfg codec requests id d w
  = (Returned (sentinel (KStr id) "No proteoforms found for the given ID."), w') /\
  get_ptm_dependent_ppi cfg codec requests id d w
  = (Returned (sentinel (KStr id) "No ptmppi found for the given ID."), w') /\
  get_ppi_for_proteoforms cfg codec requests id d w
  = (Returned (sentinel (KStr id) "No proteoformsppi found for the given ID."), w') /\
  (exists key,
     get_ptm_enzymes_from_list cfg codec requests items d w
     = (Returned (sentinel key "No ptm enzymes found for the given ID."), w')) /\
  (exists key,
     get_ptm_ppi_from_list cfg codec requests items d w
     = (Returned (sentinel key "No ptmppi found for the given ID."), w')) /\
  (forall key message, truthy (sentinel key message) = true).
Proof.
  intros Hreq. run_endpoints Hreq.
  repeat split; try reflexivity; eexists; reflexivity.
Qed.

(** X10. The body [[]] counts as empty for five of the nine functions
    only: [get_proteoforms], [get_ptm_dependent_ppi], [get_ppi_for_proteoforms]
    and the two list functions return their one-entry mapping, while [search],
    [get_info], [get_msa] and [get_substrates] hand the body to the decoder. *)
Theorem empty_list_marker_is_empty_for_five :
  (forall req, requests req w = (Returned (mkResponse 200 "[]"), w')) ->
  let decoded := if is_True d then json_loads codec "[]" else read_csv codec "[]" in
  get_proteoforms cfg codec requests id d w
  = (Returned (sentinel (KStr id) "No proteoforms found for the given ID."), w') /\
  get_ptm_dependent_ppi cfg codec requests id d w
  = (Returned (sentinel (KStr id) "No ptmppi found for the given ID."), w') /\
  get_ppi_for_proteoforms cfg codec requests id d w
  = (Returned (sentinel (KStr id) "No proteoformsppi found for the given ID."), w') /\
  (exists key,
     get_ptm_enzymes_from_list cfg codec requests items d w
     = (Returned (sentinel key "No ptm enzymes found for the given ID."), w')) /\
  (exists key,
     get_ptm_ppi_from_list cfg codec requests items d w
     = (Returned (sentinel key "No ptmppi found for the given ID."), w')) /\
  search cfg codec requests search_term term_type role ptm_list organism_list d w
  = (decoded, w') /\
  get_info cfg codec requests id d w = (json_loads codec "[]", w') /\
  get_msa cfg codec requests id d w = (json_loads codec "[]", w') /\
  get_substrates cfg codec requests id d w = (decoded, w').
Proof.
  intros Hreq decoded. subst decoded. run_endpoints Hreq.
  unfold lift, _to_dataframe_from_json.
  repeat split; try reflexivity; try (eexists; reflexivity);
    cbn; now destruct (is_True d).
Qed.

Local Ltac one_request :=
  unfold bind, logging; cbn [fst snd];
  match goal with
  | |- context [requests ?req w] => destruct (requests req w) as [[result|e] w1]
  end;
  [|reflexivity];
  repeat match goal with
         | |- context [if ?c then _ else _] => destruct c
         end;
  reflexivity.

(** X11. One call of an endpoint function is one request, whatever the
    answer: a [GET] for the functions that search or take an identifier, a
    [POST] carrying [json.dumps(items, indent=4)] for the two list functions,
    to the base URL followed by the path of the function, with the [Accept]
    header picked by the flag ([get_info] sends none).  Nothing is retried and
    nothing is sent after an error. *)
Theorem one_request_per_call :
  forall (log : list Request),
    let base := __get_base_url cfg in
    let sent (m : M (W * list Request) PyVal) := requests_of (m (w, log)) in
    let after (req : Request) := (log ++ [req])%list in
    sent (search cfg codec (logging requests) search_term term_type role
            ptm_list organism_list d)
    = after (mkRequest "GET" (base ++ "/search")
               [("search_term", PyStr search_term);
                ("term_type", PyStr term_type);
                ("ptm_type", PyList (map PyStr (match ptm_list with None => [] | Some l => l end)));
                ("role", PyStr role);
                ("organism", PyList (map PyStr (match organism_list with None => [] | Some l => l end)))]
               None (accept_headers d)) /\
    sent (get_info cfg codec (logging requests) id d)
    = after (mkRequest "GET" (base ++ "/" ++ id ++ "/info") [] None []) /\
    sent (get_msa cfg codec (logging requests) id d)
    = after (mkRequest "GET" (base ++ "/" ++ id ++ "/msa") [] None (accept_headers d)) /\
    sent (get_substrates cfg codec (logging requests) id d)
    = after (mkRequest "GET" (base ++ "/" ++ id ++ "/substrate") [] None (accept_headers d)) /\
    sent (get_proteoforms cfg codec (logging requests) id d)
    = after (mkRequest "GET" (base ++ "/" ++ id ++ "/proteoforms") [] None (accept_headers d)) /\
    sent (get_ptm_dependent_ppi cfg codec (logging requests) id d)
    = after (mkRequest "GET" (base ++ "/" ++ id ++ "/ptmppi") [] None (accept_headers d)) /\
    sent (get_ppi_for_proteoforms cfg codec (logging requests) id d)
    = after (mkRequest "GET" (base ++ "/" ++ id ++ "/proteoformsppi") [] None (accept_headers d)) /\
    sent (get_ptm_enzymes_from_list cfg codec (logging requests) items d)
    = after (mkRequest "POST" (base ++ "/batch_ptm_enzymes") []
               (Some (json_dumps codec items)) (accept_headers d)) /\
    sent (get_ptm_ppi_from_list cfg codec (logging requests) items d)
    = after (mkRequest "POST" (base ++ "/batch_ptm_ppi") []
               (Some (json_dumps codec items)) (accept_headers d)).
Proof.
  intros log base sent after. subst base sent after. unfold requests_of.
  split; [unfold search; one_request|].
  split; [unfold get_info; one_request|].
  split; [unfold get_msa; one_request|].
  split; [unfold get_substrates; one_request|].
  split; [unfold get_proteoforms; one_request|].
  split; [unfold get_ptm_dependent_ppi; one_request|].
  split; [unfold get_ppi_for_proteoforms; one_request|].
  split; [unfold get_ptm_enzymes_from_list; one_request|].
  unfold get_ptm_ppi_from_list; one_request.
Qed.

End EndpointAnswers.

(** A 404 on [get_info]. *)
Lemma endpoints_fail_fast_witness :
  failure_of (Returned (Endpoints.mkResponse 404 "Not Found")) = Some (HTTPError 404) /\
  Endpoints.get_info Endpoints.default_config Samples.sample_codec
    (Samples.constant_transport 404 "Not Found") "Q15796" PyNone tt
  = (Raised (HTTPError 404), tt).
Proof.
  split; [reflexivity|].
  exact (proj1 (proj2 (endpoints_fail_fast Endpoints.default_config Samples.sample_codec
                         (Samples.constant_transport 404 "Not Found") tt tt
                         "SMAD2" "gene" "enzyme" None None "Q15796" [] PyNone
                         _ _ (fun _ => eq_refl) eq_refl))).
Defined.

(** A 204 on the list function. *)
Lemma other_status_returns_None_witness :
  204%Z <> 200%Z /\ ~ (400 <= 204 < 600)%Z /\
  Endpoints.get_ptm_enzymes_from_list Endpoints.default_config Samples.sample_codec
    (Samples.constant_transport 204 EmptyString) (Samples.sample_sites 2) PyNone tt
  = (Returned PyNone, tt).
Proof.
  assert (204%Z <> 200%Z) as H1 by discriminate.
  assert (~ (400 <= 204 < 600)%Z) as H2 by lia.
  split; [exact H1|]. split; [exact H2|].
  exact (proj1 (proj2 (proj2 (proj2 (proj2 (proj2 (proj2 (proj2
           (other_status_returns_None Endpoints.default_config Samples.sample_codec
              (Samples.constant_transport 204 EmptyString) tt tt
              "SMAD2" "gene" "enzyme" None None "Q15796" (Samples.sample_sites 2) PyNone
              204%Z EmptyString H1 H2 (fun _ => eq_refl)))))))))).
Defined.

(** The body [site] read by [get_substrates] under the default flag. *)
Lemma flag_picks_the_decoder_witness :
  "site"%string <> EmptyString /\ "site"%string <> "[]"%string /\
  Endpoints.get_substrates Endpoints.default_config Samples.sample_codec
    (Samples.constant_transport 200 "site") "Q15796" PyNone tt
  = (Returned (PyDataFrame (mkFrame ["site"%string] [])), tt).
Proof.
  assert ("site"%string <> EmptyString) as H1 by discriminate.
  assert ("site"%string <> "[]"%string) as H2 by discriminate.
  split; [exact H1|]. split; [exact H2|].
  exact (proj1 (proj2 (proj2 (proj2
           (flag_picks_the_decoder Endpoints.default_config Samples.sample_codec
              (Samples.constant_transport 200 "site") tt tt
              "SMAD2" "gene" "enzyme" None None "Q15796" [] PyNone
              "site"%string H1 H2 (fun _ => eq_refl)))))).
Defined.

(** An empty body on [get_msa]. *)
Lemma empty_body_gives_sentinel_witness :
  Endpoints.get_msa Endpoints.default_config Samples.sample_codec
    (Samples.constant_transport 200 EmptyString) "Q15796" (PyBool true) tt
  = (Returned (sentinel (KStr "Q15796") "No msa found for the given ID."), tt).
Proof.
  exact (proj1 (proj2 (proj2
           (empty_body_gives_sentinel Endpoints.default_config Samples.sample_codec
              (Samples.constant_transport 200 EmptyString) tt tt
              "SMAD2" "gene" "enzyme" None None "Q15796" [] (PyBool true)
              (fun _ => eq_refl))))).
Defined.

(** The body [[]] on [get_proteoforms] and on [get_info]. *)
Lemma empty_list_marker_is_empty_for_five_witness :
  Endpoints.get_proteoforms Endpoints.default_config Samples.sample_codec
    (Samples.constant_transport 200 "[]") "Q15796" (PyBool true) tt
  = (Returned (sentinel (KStr "Q15796") "No proteoforms found for the given ID."), tt) /\
  Endpoints.get_info Endpoints.default_config Samples.sample_codec
    (Samples.constant_transport 200 "[]") "Q15796" (PyBool true) tt
  = (Returned (PyList []), tt).
Proof.
  pose proof (empty_list_marker_is_empty_for_five Endpoints.default_config
                Samples.sample_codec (Samples.constant_transport 200 "[]") tt tt
                "SMAD2" "gene" "enzyme" None None "Q15796" [] (PyBool true)
                (fun _ => eq_refl)) as H.
  split; [exact (proj1 H)|].
  exact (proj1 (proj2 (proj2 (proj2 (proj2 (proj2 (proj2 H))))))).
Defined.

(** * The settings *)

(** X12. The two setters are independent and the last setting of each
    wins: after [set_host_url(u)] and [set_api_version(v)], in either order
    and whatever was set before, a request goes to [u/v] followed by the path
    of the function, and to [u] followed by the path once the version is set
    back to [None]. *)
Theorem settings_decide_the_url :
  forall (W : Type) (cfg : Endpoints.Config) (codec : Endpoints.Codec)
         (requests : Endpoints.Request -> M W Endpoints.Response)
         (u v id : string) (d : PyVal) (w : W),
    set_api_version (Some v) (set_host_url u cfg)
    = set_host_url u (set_api_version (Some v) cfg) /\
    requests_of (Endpoints.get_info (set_api_version (Some v) (set_host_url u cfg))
                   codec (logging requests) id d (w, []))
    = [Endpoints.mkRequest "GET" ((u ++ "/" ++ v) ++ "/" ++ id ++ "/info")%string
         [] None []] /\
    requests_of (Endpoints.get_info
                   (set_api_version None (set_api_version (Some v) (set_host_url u cfg)))
                   codec (logging requests) id d (w, []))
    = [Endpoints.mkRequest "GET" (u ++ "/" ++ id ++ "/info")%string [] None []].
Proof.
  intros W cfg codec requests u v id d w.
  split; [reflexivity|].
  split; unfold requests_of, Endpoints.get_info, bind, logging; cbn [fst snd];
    match goal with
    | |- context [requests ?req w] => destruct (requests req w) as [[result|e] w1]
    end;
    try reflexivity;
    repeat match goal with
           | |- context [if ?c then _ else _] => destruct c
           end;
    reflexivity.
Qed.

(** * Reading the sites of a file *)

Lemma read_sites_well_formed (rows : list (list string)) :
  Forall (fun row => length row = 3) rows ->
  forall acc, exists sites,
    read_sites rows None acc = Returned (acc ++ sites) /\
    map row_of_site sites = rows.
Proof.
  induction 1 as [|row rows Hrow _ IH]; intros acc.
  - exists []. split; [cbn; now rewrite app_nil_r | reflexivity].
  - destruct row as [|a [|b [|c [|x row]]]]; try discriminate.
    cbn [read_sites unpack_site obind].
    destruct (IH (acc ++ [mkSite a b c])) as (sites & Hread & Hrows).
    exists (mkSite a b c :: sites). split.
    + rewrite Hread. now rewrite <- app_assoc.
    + cbn [map row_of_site substrate_ac site_residue site_position]. now rewrite Hrows.
Qed.

Lemma unpack_site_bad (row : list string) :
  length row <> 3 -> exists msg, unpack_site row = Raised (ValueError msg).
Proof.
  intros Hlen.
  destruct row as [|a [|b [|c [|x row]]]]; cbn [unpack_site];
    try (eexists; reflexivity).
  now contradiction Hlen.
Qed.

Lemma read_sites_bad_row (good : list (list string)) :
  Forall (fun row => length row = 3) good ->
  forall bad rest error acc,
    length bad <> 3 ->
    exists msg, read_sites (good ++ bad :: rest) error acc = Raised (ValueError msg).
Proof.
  induction 1 as [|row good Hrow _ IH]; intros bad rest error acc Hbad.
  - cbn [app read_sites].
    destruct (unpack_site_bad bad Hbad) as (msg & ->). now exists msg.
  - destruct row as [|a [|b [|c [|x row]]]]; try discriminate.
    cbn [app read_sites unpack_site obind]. now apply IH.
Qed.

Lemma read_sites_reader_error (rows : list (list string)) (e : PyExn) :
  Forall (fun row => length row = 3) rows ->
  forall acc, read_sites rows (Some e) acc = Raised e.
Proof.
  induction 1 as [|row rows Hrow _ IH]; intros acc.
  - reflexivity.
  - destruct row as [|a [|b [|c [|x row]]]]; try discriminate.
    cbn [read_sites unpack_site obind]. apply IH.
Qed.

(** X13. A file whose rows all have three fields is read into one site
    per row, in file order, each field in its place: turning the sites back
    into rows gives the rows of the file.  An empty file gives no site. *)
Theorem well_formed_file_is_read_in_order :
  forall (W : Type) (open_reader : string -> M W Reading) (file_name : string)
         (w w' : W) (rows : list (list string)),
    open_reader file_name w = (Returned (mkReading rows None), w') ->
    Forall (fun row => length row = 3) rows ->
    exists sites,
      __get_sites_from_files open_reader file_name w = (Returned sites, w') /\
      map row_of_site sites = rows.
Proof.
  intros W open_reader file_name w w' rows Hopen Hrows.
  destruct (read_sites_well_formed rows Hrows []) as (sites & Hread & Hmap).
  exists sites. split; [|exact Hmap].
  unfold __get_sites_from_files, bind, lift. rewrite Hopen.
  cbn [rows_read read_error]. now rewrite Hread.
Qed.

(** The file [sites.tsv] of three rows. *)
Lemma well_formed_file_is_read_in_order_witness :
  exists sites,
    __get_sites_from_files MoreCases.sample_reader "sites.tsv" tt = (Returned sites, tt) /\
    map row_of_site sites = MoreCases.rows_of 3.
Proof.
  apply (well_formed_file_is_read_in_order unit MoreCases.sample_reader "sites.tsv"
           tt tt (MoreCases.rows_of 3) eq_refl).
  repeat constructor.
Defined.

(** X14. The first row that does not have exactly three fields, a blank
    line included, makes the reading raise [ValueError]; the rows after it and
    a later failure of the reader play no part. *)
Theorem malformed_row_raises_ValueError :
  forall (W : Type) (open_reader : string -> M W Reading) (file_name : string)
         (w w' : W) (good : list (list string)) (bad : list string)
         (rest : list (list string)) (error : option PyExn),
    open_reader file_name w = (Returned (mkReading (good ++ bad :: rest) error), w') ->
    Forall (fun row => length row = 3) good ->
    length bad <> 3 ->
    exists msg,
      __get_sites_from_files open_reader file_name w = (Raised (ValueError msg), w').
Proof.
  intros W open_reader file_name w w' good bad rest error Hopen Hgood Hbad.
  destruct (read_sites_bad_row good Hgood bad rest error [] Hbad) as (msg & Hread).
  exists msg. unfold __get_sites_from_files, bind, lift. rewrite Hopen.
  cbn [rows_read read_error]. now rewrite Hread.
Qed.

(** The file [blank.tsv], whose second line is blank. *)
Lemma malformed_row_raises_ValueError_witness :
  exists msg,
    __get_sites_from_files MoreCases.sample_reader "blank.tsv" tt
    = (Raised (ValueError msg), tt).
Proof.
  apply (malformed_row_raises_ValueError unit MoreCases.sample_reader "blank.tsv"
           tt tt [["P27361"; "Y"; "187"]]%string [] [["Q15796"; "S"; "465"]]%string None
           eq_refl).
  - repeat constructor.
  - discriminate.
Defined.

(** X15. Failures of the file itself are passed on: when the file cannot
    be opened the reading raises what [open] raises, and when the reader
    breaks off after rows that all have three fields the reading raises what
    the reader raises; no partial list of sites is returned. *)
Theorem reader_failures_are_passed_on :
  forall (W : Type) (open_reader : string -> M W Reading) (file_name : string)
         (w w' : W) (e : PyExn),
    (open_reader file_name w = (Raised e, w') \/
     exists rows,
       open_reader file_name w = (Returned (mkReading rows (Some e)), w') /\
       Forall (fun row => length row = 3) rows) ->
    __get_sites_from_files open_reader file_name w = (Raised e, w').
Proof.
  intros W open_reader file_name w w' e [Hopen | (rows & Hopen & Hrows)];
    unfold __get_sites_from_files, bind, lift; rewrite Hopen.
  - reflexivity.
  - cbn [rows_read read_error]. now rewrite read_sites_reader_error.
Qed.

(** A missing file. *)
Lemma reader_failures_are_passed_on_witness :
  __get_sites_from_files MoreCases.sample_reader "missing.tsv" tt
  = (Raised (OtherError "FileNotFoundError"), tt).
Proof.
  apply reader_failures_are_passed_on. left. reflexivity.
Defined.

(** * The file functions end to end *)

Lemma py_range_head (n : nat) :
  0 < n -> exists rest, py_range 0 n 1000 = 0 :: rest.
Proof.
  intros Hn. unfold py_range. rewrite Nat.sub_0_r.
  assert (0 < (n + 1000 - 1) / 1000) as Hq
    by (apply Nat.div_str_pos; lia).
  destruct ((n + 1000 - 1) / 1000) as [|q]; [lia|].
  cbn [seq map]. eexists. reflexivity.
Qed.

Section FileFunctions.

Import Endpoints.

Local Open Scope string_scope.

Context {W : Type}.
Variable cfg : Config.
Variable codec : Codec.
Variable requests : Request -> M W Response.
Variable pandas : Pandas.
Variable open_reader : string -> M W Reading.

Lemma list_functions_log_one_request (items : list Site) (d : PyVal) (w : W)
  (log : list Request) :
  requests_of (get_ptm_enzymes_from_list cfg codec (logging requests) items d (w, log))
  = (log ++ [enzymes_request cfg codec items d])%list /\
  requests_of (get_ptm_ppi_from_list cfg codec (logging requests) items d (w, log))
  = (log ++ [ppi_request cfg codec items d])%list.
Proof.
  unfold requests_of, get_ptm_enzymes_from_list, get_ptm_ppi_from_list,
    enzymes_request, ppi_request, bind, logging; cbn [fst snd].
  split;
    match goal with
    | |- context [requests ?req w] => destruct (requests req w) as [[result|e] w1]
    end;
    try reflexivity;
    repeat match goal with
           | |- context [if ?c then _ else _] => destruct c
           end;
    reflexivity.
Qed.

(** X16. A file of at most 1000 well-formed rows is one call of the list
    function on all its sites: [get_ptm_enzymes_from_file] and
    [get_ptm_ppi_from_file] return what that call returns and send exactly
    one [POST], whose data is [json.dumps] of the sites in file order. *)
Theorem small_file_is_one_post :
  forall (file_name : string) (d : PyVal) (w w1 : W) (rows : list (list string)),
    open_reader file_name w = (Returned (mkReading rows None), w1) ->
    Forall (fun row => length row = 3) rows ->
    length rows <= 1000 ->
    exists sites,
      map row_of_site sites = rows /\
      enzymes_from_file cfg codec requests pandas open_reader file_name d (w, [])
      = get_ptm_enzymes_from_list cfg codec (logging requests) sites d (w1, []) /\
      requests_of (enzymes_from_file cfg codec requests pandas open_reader file_name d (w, []))
      = [enzymes_request cfg codec sites d] /\
      ppi_from_file cfg codec requests pandas open_reader file_name d (w, [])
      = get_ptm_ppi_from_list cfg codec (logging requests) sites d (w1, []) /\
      requests_of (ppi_from_file cfg codec requests pandas open_reader file_name d (w, []))
      = [ppi_request cfg codec sites d].
Proof.
  intros file_name d w w1 rows Hopen Hrows Hlen.
  destruct (read_sites_well_formed rows Hrows []) as (sites & Hread & Hmap).
  exists sites. split; [exact Hmap|].
  assert (length sites <= 1000) as Hsites
    by (rewrite <- Hmap, length_map in Hlen; exact Hlen).
  apply Nat.leb_le in Hsites.
  assert (enzymes_from_file cfg codec requests pandas open_reader file_name d (w, [])
          = get_ptm_enzymes_from_list cfg codec (logging requests) sites d (w1, [])) as He.
  { unfold enzymes_from_file, get_ptm_enzymes_from_file, bind at 1, unlogged,
      __get_sites_from_files, bind, lift. cbn [fst snd]. rewrite Hopen.
    cbn [rows_read read_error]. rewrite Hread. cbn [app].
    unfold __get_data. now rewrite Hsites. }
  assert (ppi_from_file cfg codec requests pandas open_reader file_name d (w, [])
          = get_ptm_ppi_from_list cfg codec (logging requests) sites d (w1, [])) as Hp.
  { unfold ppi_from_file, get_ptm_ppi_from_file, bind at 1, unlogged,
      __get_sites_from_files, bind, lift. cbn [fst snd]. rewrite Hopen.
    cbn [rows_read read_error]. rewrite Hread. cbn [app].
    unfold __get_data. now rewrite Hsites. }
  split; [exact He|]. split.
  { rewrite He. apply (proj1 (list_functions_log_one_request sites d w1 [])). }
  split; [exact Hp|].
  rewrite Hp. apply (proj2 (list_functions_log_one_request sites d w1 [])).
Qed.

(** X17. When the file cannot be read, whether it cannot be opened, has a
    row without three fields or breaks off, the file functions raise the
    exception of the reading and send no request. *)
Theorem unreadable_file_sends_nothing :
  forall (file_name : string) (d : PyVal) (w w1 : W) (e : PyExn),
    __get_sites_from_files open_reader file_name w = (Raised e, w1) ->
    enzymes_from_file cfg codec requests pandas open_reader file_name d (w, []) = (Raised e, (w1, [])) /\
    ppi_from_file cfg codec requests pandas open_reader file_name d (w, []) = (Raised e, (w1, [])).
Proof.
  intros file_name d w w1 e Hread.
  unfold enzymes_from_file, ppi_from_file, get_ptm_enzymes_from_file,
    get_ptm_ppi_from_file, bind, unlogged. cbn [fst snd].
  rewrite Hread. split; reflexivity.
Qed.

(** X18. Tables cannot be batched: for a file of more than 1000
    well-formed rows and a flag that is not [True], when the first request is
    answered with status 200 and a body that [pd.read_csv] turns into a table,
    [get_ptm_enzymes_from_file] raises the [ValueError] of the truth test of
    that table, having sent only the request for the first 1000 sites. *)
Theorem table_answers_break_big_files :
  forall (file_name : string) (d : PyVal) (w w1 w2 : W) (rows : list (list string))
         (body : string) (df : DataFrame),
    open_reader file_name w = (Returned (mkReading rows None), w1) ->
    Forall (fun row => length row = 3) rows ->
    1000 < length rows ->
    body <> EmptyString ->
    body <> "[]" ->
    is_True d = false ->
    read_csv codec body = Returned (PyDataFrame df) ->
    (forall req, requests req w1 = (Returned (mkResponse 200 body), w2)) ->
    exists sites,
      map row_of_site sites = rows /\
      enzymes_from_file cfg codec requests pandas open_reader file_name d (w, [])
      = (Raised ambiguous_truth, (w2, [enzymes_request cfg codec (firstn 1000 sites) d])).
Proof.
  intros file_name d w w1 w2 rows body df Hopen Hrows Hlen Hne Hnl Hd Hcsv Hreq.
  destruct (read_sites_well_formed rows Hrows []) as (sites & Hread & Hmap).
  exists sites. split; [exact Hmap|].
  assert (1000 < length sites) as Hsites
    by (rewrite <- Hmap, length_map in Hlen; exact Hlen).
  destruct (py_range_head (length sites)) as (rest & Hrange); [lia|].
  apply String.eqb_neq in Hne, Hnl.
  unfold enzymes_from_file, get_ptm_enzymes_from_file, bind at 1, unlogged,
    __get_sites_from_files, bind, lift. cbn [fst snd]. rewrite Hopen.
  cbn [rows_read read_error]. rewrite Hread. cbn [app].
  unfold __get_data.
  destruct (Nat.leb_spec (length sites) 1000) as [Hle|_]; [lia|].
  rewrite Hrange. cbn [for_chunks]. unfold slice.
  replace (0 + 1000 - 0) with 1000 by reflexivity. cbn [skipn].
  unfold bind at 1 2. unfold get_ptm_enzymes_from_list, bind, logging. cbn [fst snd].
  rewrite Hreq. cbn [status_code text]. rewrite Z.eqb_refl, Hne, Hnl. cbn [orb].
  rewrite Hd. unfold lift, _to_dataframe_from_json. rewrite Hcsv.
  reflexivity.
Qed.

End FileFunctions.

Lemma rows_of_well_formed (n : nat) :
  Forall (fun row => length row = 3) (MoreCases.rows_of n).
Proof.
  apply Forall_forall. intros row Hin.
  apply in_map_iff in Hin. now destruct Hin as (s & <- & _).
Qed.

(** The file [sites.tsv] of three rows, answered with an empty body. *)
Lemma small_file_is_one_post_witness :
  length (MoreCases.rows_of 3) <= 1000 /\
  exists sites,
    map row_of_site sites = MoreCases.rows_of 3 /\
    requests_of (enzymes_from_file Endpoints.default_config Samples.sample_codec
                   (Samples.constant_transport 200 EmptyString) Samples.reference_pandas
                   MoreCases.sample_reader "sites.tsv" PyNone (tt, []))
    = [enzymes_request Endpoints.default_config Samples.sample_codec sites PyNone].
Proof.
  assert (length (MoreCases.rows_of 3) <= 1000) as H
    by (apply Nat.leb_le; vm_compute; reflexivity).
  split; [exact H|].
  destruct (small_file_is_one_post Endpoints.default_config Samples.sample_codec
              (Samples.constant_transport 200 EmptyString) Samples.reference_pandas
              MoreCases.sample_reader "sites.tsv" PyNone tt tt (MoreCases.rows_of 3)
              eq_refl (rows_of_well_formed 3) H)
    as (sites & Hmap & _ & Hsent & _).
  exists sites. split; assumption.
Defined.

(** A missing file. *)
Lemma unreadable_file_sends_nothing_witness :
  enzymes_from_file Endpoints.default_config Samples.sample_codec
    (Samples.constant_transport 200 EmptyString) Samples.reference_pandas
    MoreCases.sample_reader "missing.tsv" PyNone (tt, [])
  = (Raised (OtherError "FileNotFoundError"), (tt, [])).
Proof.
  exact (proj1 (unreadable_file_sends_nothing Endpoints.default_config
                  Samples.sample_codec (Samples.constant_transport 200 EmptyString)
                  Samples.reference_pandas MoreCases.sample_reader
                  "missing.tsv" PyNone tt tt (OtherError "FileNotFoundError") eq_refl)).
Defined.

(** The file [big.tsv] of 2500 rows, every request answered with a table
    header. *)
Lemma table_answers_break_big_files_witness :
  1000 < length (MoreCases.rows_of 2500) /\
  fst (enzymes_from_file Endpoints.default_config Samples.sample_codec
         (Samples.constant_transport 200 "site") Samples.reference_pandas
         MoreCases.sample_reader "big.tsv" PyNone (tt, []))
  = Raised ambiguous_truth.
Proof.
  assert (1000 < length (MoreCases.rows_of 2500)) as H
    by (apply Nat.ltb_lt; vm_compute; reflexivity).
  split; [exact H|].
  assert ("site"%string <> EmptyString) as H1 by discriminate.
  assert ("site"%string <> "[]"%string) as H2 by discriminate.
  destruct (table_answers_break_big_files Endpoints.default_config Samples.sample_codec
              (Samples.constant_transport 200 "site") Samples.reference_pandas
              MoreCases.sample_reader "big.tsv" PyNone tt tt tt (MoreCases.rows_of 2500)
              "site"%string (mkFrame ["site"%string] [])
              eq_refl (rows_of_well_formed 2500) H H1 H2 eq_refl eq_refl
              (fun _ => eq_refl))
    as (sites & _ & Hrun).
  now rewrite Hrun.
Defined.

(** * Batches that find nothing *)

Lemma key_eqb_refl (k : PyKey) : key_eqb k k = true.
Proof. now apply key_eqb_true. Qed.

Lemma update_same_entry (key : PyKey) (v : PyVal) (n : nat) :
  fold_left update_entries (repeat [(key, v)] n) [(key, v)] = [(key, v)].
Proof.
  induction n as [|n IH]; cbn [repeat fold_left]; [reflexivity|].
  unfold update_entries at 2. cbn [fold_left dict_setitem fst snd].
  now rewrite key_eqb_refl.
Qed.

Lemma splice_same_mapping (es : list (PyKey * PyVal)) (n : nat) :
  concat (map splice (repeat (PyDict es) n)) = repeat (PyDict es) n.
Proof.
  induction n as [|n IH]; cbn; [reflexivity | now rewrite IH].
Qed.

Lemma for_chunks_same_answer {W : Type} (sites : list Site) (f : Invoker W)
  (d s : PyVal) :
  (forall items w0, f items d w0 = (Returned s, w0)) ->
  truthy s = true ->
  forall starts acc w,
    for_chunks sites f d starts acc w
    = (Returned (acc ++ repeat s (length starts)), w).
Proof.
  intros Hf Hs. unfold truthy in Hs.
  destruct (py_bool s) as [[|]|e] eqn:Eb; try discriminate.
  induction starts as [|i rest IH]; intros acc w.
  - cbn. now rewrite app_nil_r.
  - cbn [for_chunks]. unfold bind, lift. rewrite Hf, Eb.
    rewrite IH, <- app_assoc. reflexivity.
Qed.

(** X19. When the server has nothing for any chunk, that is, it answers
    every request with status 200 and an empty body, a batch of
    [get_ptm_enzymes_from_list] over more than 1000 sites depends on the flag:
    with [True] the result lists the one-entry mapping once per chunk, and
    with any other flag the mappings are folded into that single one-entry
    mapping. *)
Theorem empty_answers_per_chunk_or_folded :
  forall (pandas : Pandas) (W : Type) (cfg : Endpoints.Config) (codec : Endpoints.Codec)
         (requests : Endpoints.Request -> M W Endpoints.Response)
         (sites : list Site) (d : PyVal) (w : W),
    1000 < length sites ->
    (forall req w0,
       requests req w0 = (Returned (Endpoints.mkResponse 200 EmptyString), w0)) ->
    exists key,
      let nothing := sentinel key "No ptm enzymes found for the given ID." in
      __get_data pandas sites (Endpoints.get_ptm_enzymes_from_list cfg codec requests)
        (PyBool true) w
      = (Returned (PyList (repeat nothing (length (chunks_of sites)))), w) /\
      (is_True d = false ->
       __get_data pandas sites (Endpoints.get_ptm_enzymes_from_list cfg codec requests) d w
       = (Returned nothing, w)).
Proof.
  intros pandas W cfg codec requests sites d w Hlen Hreq.
  exists (KBuiltin "id"). intros nothing.
  assert (forall flag items w0,
            Endpoints.get_ptm_enzymes_from_list cfg codec requests items flag w0
            = (Returned nothing, w0)) as Hf.
  { intros flag items w0. unfold Endpoints.get_ptm_enzymes_from_list, bind.
    now rewrite Hreq. }
  assert (forall flag,
            __get_data pandas sites (Endpoints.get_ptm_enzymes_from_list cfg codec requests)
              flag w
            = (merge_chunks pandas (repeat nothing (length (chunks_of sites))) flag, w))
    as Hrun.
  { intros flag. unfold __get_data.
    destruct (Nat.leb_spec (length sites) 1000) as [Hle|_]; [lia|].
    unfold bind. rewrite (for_chunks_same_answer sites _ flag nothing (Hf flag) eq_refl).
    unfold chunks_of. now rewrite length_map. }
  split.
  - rewrite Hrun, merge_chunks_list_mode. do 3 f_equal.
    apply splice_same_mapping.
  - intros Hd. rewrite Hrun. f_equal.
    assert (0 < length (chunks_of sites)) as Hpos.
    { rewrite chunks_of_length. apply Nat.div_str_pos. lia. }
    destruct (length (chunks_of sites)) as [|n]; [lia|].
    set (es := [(KBuiltin "id", PyStr "No ptm enzymes found for the given ID.")]).
    assert (repeat nothing (S n) = map PyDict (es :: repeat es n)) as ->
      by (cbn [repeat map]; now rewrite map_repeat).
    unfold merge_chunks. cbn [map]. rewrite Hd.
    change (PyDict es :: map PyDict (repeat es n)) with (map PyDict (es :: repeat es n)).
    rewrite update_all_mappings. cbn [fold_left obind].
    change (update_entries [] es) with es.
    unfold es. now rewrite update_same_entry.
Qed.

(** 2500 sites, three chunks: three mappings in list mode, one otherwise. *)
Lemma empty_answers_per_chunk_or_folded_witness :
  1000 < length Cases.sites_2500 /\
  exists key,
    fst (__get_data Samples.reference_pandas Cases.sites_2500
           (Endpoints.get_ptm_enzymes_from_list Endpoints.default_config
              Samples.sample_codec (Samples.constant_transport 200 EmptyString))
           (PyBool true) tt)
    = Returned (PyList (repeat (sentinel key "No ptm enzymes found for the given ID.") 3)).
Proof.
  assert (1000 < length Cases.sites_2500) as H
    by (apply Nat.ltb_lt; vm_compute; reflexivity).
  split; [exact H|].
  destruct (empty_answers_per_chunk_or_folded Samples.reference_pandas unit
              Endpoints.default_config Samples.sample_codec
              (Samples.constant_transport 200 EmptyString) Cases.sites_2500 PyNone tt H
              (fun _ _ => eq_refl)) as (key & Hlist & _).
  exists key. rewrite Hlist. vm_compute. reflexivity.
Defined.

(** * The sentinel is data, whatever the flag *)

(** ** Updates never remove a key *)

Lemma dict_setitem_keeps (m : list (PyKey * PyVal)) (k k' : PyKey) (v : PyVal) :
  dict_getitem m k <> None -> dict_getitem (dict_setitem m k' v) k <> None.
Proof.
  intros Hk. rewrite dict_getitem_setitem.
  destruct (key_eqb k' k); [discriminate | exact Hk].
Qed.

Lemma update_entries_keeps (es m : list (PyKey * PyVal)) (k : PyKey) :
  dict_getitem m k <> None -> dict_getitem (update_entries m es) k <> None.
Proof.
  intros Hk. rewrite dict_getitem_update.
  destruct (binding es k); [discriminate | exact Hk].
Qed.

Lemma update_pairs_keeps (items : list PyVal) (k : PyKey) :
  forall m i m',
    update_pairs m i items = Returned m' ->
    dict_getitem m k <> None -> dict_getitem m' k <> None.
Proof.
  induction items as [|item items IH]; intros m i m' H Hk; cbn [update_pairs] in H.
  - now injection H as <-.
  - destruct (as_pair i item) as [[a b]|e]; cbn [obind fst snd] in H; [|discriminate].
    destruct (as_key a) as [ka|e]; cbn [obind] in H; [|discriminate].
    apply (IH _ _ _ H). now apply dict_setitem_keeps.
Qed.

Lemma dict_update_keeps (pandas : Pandas) (m m' : list (PyKey * PyVal))
  (other : PyVal) (k : PyKey) :
  dict_update pandas m other = Returned m' ->
  dict_getitem m k <> None -> dict_getitem m' k <> None.
Proof.
  intros H Hk. destruct other; cbn [dict_update] in H; try discriminate.
  - exact (update_pairs_keeps _ k _ _ _ H Hk).
  - exact (update_pairs_keeps _ k _ _ _ H Hk).
  - injection H as <-. now apply update_entries_keeps.
  - destruct (frame_items pandas df) as [es|e]; cbn [obind] in H; [|discriminate].
    injection H as <-. now apply update_entries_keeps.
Qed.

Lemma update_all_keeps (pandas : Pandas) (chunks : list PyVal) (k : PyKey) :
  forall m m',
    update_all pandas m chunks = Returned m' ->
    dict_getitem m k <> None -> dict_getitem m' k <> None.
Proof.
  induction chunks as [|chunk chunks IH]; intros m m' H Hk; cbn [update_all] in H.
  - now injection H as <-.
  - destruct (dict_update pandas m chunk) as [m1|e] eqn:E; cbn [obind] in H; [|discriminate].
    apply (IH _ _ H). exact (dict_update_keeps pandas _ _ _ k E Hk).
Qed.

(** Once a one-entry mapping has been merged in, its key stays. *)
Lemma update_all_binds (pandas : Pandas) (pre post : list PyVal)
  (key : PyKey) (v : PyVal) :
  forall m m',
    update_all pandas m (pre ++ PyDict [(key, v)] :: post) = Returned m' ->
    dict_getitem m' key <> None.
Proof.
  induction pre as [|chunk pre IH]; intros m m' H; cbn [app update_all] in H.
  - cbn [dict_update obind] in H.
    apply (update_all_keeps pandas post key _ _ H).
    rewrite dict_getitem_update. unfold binding. cbn [fold_left fst snd].
    rewrite key_eqb_refl. discriminate.
  - destruct (dict_update pandas m chunk) as [m1|e]; cbn [obind] in H; [|discriminate].
    exact (IH _ _ H).
Qed.

(** C10. In a batch over more than 1000 sites whose calls all return
    testable results, a call that returns the one-entry sentinel mapping has
    its result retained and merged like any other, whatever the flag.  With
    [dict=True] the sentinel is an element of the list returned.  With any
    other flag, whatever the batch returns holds it: the raw list of retained
    results, or a merged mapping that has the sentinel's key; when the
    retained results are all mappings the merge does return, and the key
    holds the sentinel's message unless a later mapping binds the key again;
    when the first retained result is not a mapping the raw list is returned.
    The retained results are the returned ones whose truth value is true, so
    a result is dropped only when it is false as a truth value, as the empty
    list, the empty mapping and [None] are. *)
Theorem sentinel_is_retained :
  forall (pandas : Pandas) (W : Type) (sites : list Site) (f : Invoker W)
         (d : PyVal) (w : W) (k : nat) (c : Call) (key : PyKey) (message : string),
    1000 < length sites ->
    let r := run_batch pandas sites f d w in
    forallb call_ok (calls_of r) = true ->
    nth_error (calls_of r) k = Some c ->
    call_outcome c = Returned (sentinel key message) ->
    In (sentinel key message) (retained (calls_of r)) /\
    (d = PyBool true ->
     exists l, result_of r = Returned (PyList l) /\ In (sentinel key message) l) /\
    (is_True d = false ->
     forall v, result_of r = Returned v ->
       v = PyList (retained (calls_of r)) \/
       exists merged, v = PyDict merged /\ dict_getitem merged key <> None) /\
    (is_True d = false ->
     forall pre post,
       retained (calls_of r) = map PyDict (pre ++ [(key, PyStr message)] :: post) ->
       exists merged,
         result_of r = Returned (PyDict merged) /\
         dict_getitem merged key <> None /\
         (Forall (fun es => binding es key = None) post ->
          dict_getitem merged key = Some (PyStr message))) /\
    (is_True d = false ->
     forall first rest,
       retained (calls_of r) = first :: rest ->
       is_dict first = false ->
       result_of r = Returned (PyList (first :: rest)) /\
       In (sentinel key message) (first :: rest)) /\
    retained (calls_of r) = filter truthy (returned_values (calls_of r)) /\
    (forall v, In v (returned_values (calls_of r)) ->
               ~ In v (retained (calls_of r)) -> falsy v = true) /\
    falsy (PyList []) = true /\ falsy (PyDict []) = true /\ falsy PyNone = true.
Proof.
  intros pandas W sites f d w k c key message Hlen r Hok Hnth Hout.
  destruct (run_batch_all_ok pandas sites f d w Hlen Hok) as [_ Hres].
  fold r in Hres.
  assert (In (sentinel key message) (retained (calls_of r))) as Hin.
  { unfold retained. apply in_flat_map. exists c.
    split; [exact (nth_error_In _ _ Hnth)|].
    unfold kept. rewrite Hout. now left. }
  split; [exact Hin|]. split.
  { intros ->. eexists. split.
    - rewrite Hres. apply merge_chunks_list_mode.
    - apply in_concat. exists [sentinel key message].
      split; [|now left].
      apply in_map_iff. exists (sentinel key message). split; [reflexivity | exact Hin]. }
  split.
  { intros Hd v Hv. rewrite Hres in Hv.
    destruct (in_split _ _ Hin) as (pre & post & Hsplit).
    destruct (retained (calls_of r)) as [|first rest] eqn:Eret; [contradiction|].
    assert (is_frame first = false) as Hframe
      by (apply (retained_never_frames (calls_of r)); rewrite Eret; now left).
    unfold merge_chunks in Hv. rewrite Hd in Hv.
    destruct first; try discriminate Hframe;
      try (injection Hv as <-; now left).
    right. rewrite Hsplit in Hv.
    destruct (update_all pandas [] (pre ++ sentinel key message :: post))
      as [merged|e] eqn:E; cbn [obind] in Hv; [|discriminate].
    injection Hv as <-. exists merged. split; [reflexivity|].
    exact (update_all_binds pandas pre post key (PyStr message) _ _ E). }
  split.
  { intros Hd pre post Hret.
    exists (fold_left update_entries (pre ++ [(key, PyStr message)] :: post) []).
    assert (binding [(key, PyStr message)] key = Some (PyStr message)) as Hbind
      by (unfold binding; cbn [fold_left fst snd]; now rewrite key_eqb_refl).
    split; [|split].
    - rewrite Hres, Hret. unfold merge_chunks.
      destruct (pre ++ [(key, PyStr message)] :: post) as [|first others] eqn:E;
        [now destruct pre|].
      cbn [map]. rewrite Hd.
      change (PyDict first :: map PyDict others) with (map PyDict (first :: others)).
      now rewrite update_all_mappings.
    - intros Hnone. apply dict_getitem_merged_none in Hnone.
      destruct Hnone as [_ Hall]. rewrite Forall_forall in Hall.
      specialize (Hall [(key, PyStr message)]).
      rewrite Hbind in Hall. discriminate Hall.
      apply in_or_app. right. now left.
    - intros Hpost. now apply last_write_wins. }
  split.
  { intros Hd first rest Hret Hdict.
    assert (is_frame first = false) as Hframe
      by (apply (retained_never_frames (calls_of r)); rewrite Hret; now left).
    split; [|now rewrite <- Hret].
    rewrite Hres, Hret. unfold merge_chunks. rewrite Hd.
    destruct first; try reflexivity; discriminate. }
  split; [apply retained_filter|]. split; [|repeat split].
  intros v Hv Hdropped.
  destruct (returned_value_testable _ v Hok Hv) as [Ht|Hf]; [|exact Hf].
  exfalso. apply Hdropped. rewrite retained_filter.
  apply filter_In. split; assumption.
Qed.

(** A mapping, the sentinel and an empty list under the default flag: the
    result is a mapping that holds the sentinel's message under its key; the
    empty list leaves no trace. *)
Lemma sentinel_is_retained_witness :
  1000 < length Cases.sites_2500 /\
  exists merged,
    result_of (run_batch Samples.reference_pandas Cases.sites_2500
                 (Samples.scripted MoreCases.mapping_and_sentinel) PyNone 0)
    = Returned (PyDict merged) /\
    dict_getitem merged (KBuiltin "id")
    = Some (PyStr "No ptm enzymes found for the given ID.").
Proof.
  assert (1000 < length Cases.sites_2500) as H
    by (apply Nat.ltb_lt; vm_compute; reflexivity).
  split; [exact H|].
  assert (forallb call_ok
            (calls_of (run_batch Samples.reference_pandas Cases.sites_2500
                         (Samples.scripted MoreCases.mapping_and_sentinel) PyNone 0)) = true)
    as Hok by (vm_compute; reflexivity).
  destruct (sentinel_is_retained Samples.reference_pandas nat Cases.sites_2500
              (Samples.scripted MoreCases.mapping_and_sentinel) PyNone 0 1
              (mkCall (slice Cases.sites_2500 1000 2000) PyNone
                 (Returned (sentinel (KBuiltin "id") "No ptm enzymes found for the given ID.")))
              (KBuiltin "id") "No ptm enzymes found for the given ID." H Hok)
    as (_ & _ & _ & Hmaps & _).
  - vm_compute. reflexivity.
  - reflexivity.
  - destruct (Hmaps eq_refl [[(KStr "P27361", PyStr "P28482")]] [])
      as (merged & Hres & _ & Hval).
    + vm_compute. reflexivity.
    + exists merged. split; [exact Hres|]. apply Hval. constructor.
Defined.

(** The same three results under [dict=True]: a list of the mapping and
    the sentinel. *)
Example sentinel_in_list_mode :
  result_of (run_batch Samples.reference_pandas Cases.sites_2500
               (Samples.scripted MoreCases.mapping_and_sentinel) (PyBool true) 0)
  = Returned (PyList [PyDict [(KStr "P27361", PyStr "P28482")];
                      sentinel (KBuiltin "id") "No ptm enzymes found for the given ID."]) /\
  result_of (run_batch Samples.reference_pandas Cases.sites_2500
               (Samples.scripted MoreCases.mapping_and_sentinel) PyNone 0)
  = Returned (PyDict [(KStr "P27361", PyStr "P28482");
                      (KBuiltin "id", PyStr "No ptm enzymes found for the given ID.")]).
Proof. split; vm_compute; reflexivity. Qed.

(** A list, the sentinel and an empty list: flattened with [dict=True], and
    returned as the raw list of the two retained results under the default
    flag, the first one not being a mapping. *)
Example sentinel_after_a_list :
  result_of (run_batch Samples.reference_pandas Cases.sites_2500
               (Samples.scripted Cases.with_sentinel) (PyBool true) 0)
  = Returned (PyList [PyDict [(KStr "enz", PyStr "P28482")];
                      sentinel (KBuiltin "id") "No ptm enzymes found for the given ID."]) /\
  result_of (run_batch Samples.reference_pandas Cases.sites_2500
               (Samples.scripted Cases.with_sentinel) PyNone 0)
  = Returned (PyList [PyList [PyDict [(KStr "enz", PyStr "P28482")]];
                      sentinel (KBuiltin "id") "No ptm enzymes found for the given ID."]).
Proof. split; vm_compute; reflexivity. Qed.
